(** * MiniTrace (runtime/mini_trace.cc): coverage dump and trace lifecycle

    A shallow embedding of [art::MiniTrace] and of the two class visitors of
    runtime/mini_trace.cc, followed by the properties of the coverage
    lifecycle controller that are checked against it. *)

From Stdlib Require Import NArith ZArith String Ascii List HexadecimalString.
From stdpp Require Import base option list strings gmap pretty.

Local Open Scope N_scope.
Local Open Scope string_scope.

(** ** Results of code that reads raw memory

    [data] is a raw [uint8_t*]; the code indexes it without a bounds check.
    The model keeps the allocated bytes as a list and makes every access
    that leaves the list an explicit [OutOfBounds] outcome. *)

Inductive res (A : Type) : Type :=
  | Ok (a : A)
  | OutOfBounds.
Arguments Ok {A} a.
Arguments OutOfBounds {A}.

#[global] Instance res_ret : MRet res := fun _ a => Ok a.
#[global] Instance res_bind : MBind res := fun _ _ f m =>
  match m with
  | Ok a => f a
  | OutOfBounds => OutOfBounds
  end.

Definition is_Ok {A} (r : res A) : bool :=
  match r with Ok _ => true | OutOfBounds => false end.

(** [data[i]] as an rvalue. *)
Definition load8 (data : list N) (i : nat) : res N :=
  match data !! i with
  | Some b => Ok b
  | None => OutOfBounds
  end.

(** [p[i]] for [uint32_t* p = reinterpret_cast<uint32_t*>(data)]: the four
    bytes [4i .. 4i+3], assembled little-endian. *)
Definition load32 (data : list N) (i : nat) : res N :=
  b0 ← load8 data (4 * i);
  b1 ← load8 data (4 * i + 1);
  b2 ← load8 data (4 * i + 2);
  b3 ← load8 data (4 * i + 3);
  mret (N.lor b0 (N.lor (N.shiftl b1 8) (N.lor (N.shiftl b2 16) (N.shiftl b3 24)))).

(** ** Methods *)

Record CodeItem : Type := {
  (** what [DexInstructions().InsnsSizeInCodeUnits()] returns (a uint32_t) *)
  InsnsSizeInCodeUnits : N
}.

Record ArtMethod : Type := {
  method_address : N;
  Method_IsMiniTraceable : bool;
  GetCodeItem : option CodeItem;
  GetCoverageData : option (list N);
  GetDeclaringClassDescriptor : string;
  GetName : string;
  GetSignature : string;
  GetDeclaringClassSourceFile : string
}.

(** The method after the dump stored into its coverage array. *)
Definition with_coverage (m : ArtMethod) (data : list N) : ArtMethod :=
  {| method_address := method_address m;
     Method_IsMiniTraceable := Method_IsMiniTraceable m;
     GetCodeItem := GetCodeItem m;
     GetCoverageData := Some data;
     GetDeclaringClassDescriptor := GetDeclaringClassDescriptor m;
     GetName := GetName m;
     GetSignature := GetSignature m;
     GetDeclaringClassSourceFile := GetDeclaringClassSourceFile m |}.

(** [uint16_t insns_size = ...InsnsSizeInCodeUnits()]: the conversion to
    16 bits keeps the low half. *)
Definition to_uint16 (n : N) : N := n mod 65536.

Definition insns_size_of (ci : CodeItem) : N := to_uint16 (InsnsSizeInCodeUnits ci).

(** The ["%p"] conversion: [0x] and the address in hexadecimal. *)
Definition format_pointer (a : N) : string :=
  "0x" +:+ NilZero.string_of_uint (N.to_hex_uint a).

Definition tab : string := String (ascii_of_nat 9) EmptyString.
Definition newline : string := String (ascii_of_nat 10) EmptyString.

Section Codec.

(** [PrettyDescriptor] is defined in dex/descriptors_names.cc. *)
Variable PrettyDescriptor : string → string.

(** The text put on the stream by the [StringPrintf] of line 132. *)
Definition line_header (m : ArtMethod) (insns_size : N) : string :=
  format_pointer (method_address m) +:+ tab +:+
  PrettyDescriptor (GetDeclaringClassDescriptor m) +:+ tab +:+
  GetName m +:+ tab +:+
  GetSignature m +:+ tab +:+
  GetDeclaringClassSourceFile m +:+ tab +:+
  pretty insns_size +:+ tab.

(** [for (int i = 0; i <= length; i++) if (p[i] != 0) { visited = true; break; }]
    with [todo] iterations left, the next one at index [i]. *)
Fixpoint scan_words (todo : nat) (i : nat) (data : list N) : res bool :=
  match todo with
  | O => Ok false
  | S todo' =>
      w ← load32 data i;
      if N.eqb w 0 then scan_words todo' (S i) data else Ok true
  end.

(** [for (int i = 0; i < insns_size; i++)] of lines 136-143, with [todo]
    iterations left, the next one at index [i]. *)
Fixpoint emit_bits (todo : nat) (i : nat) (os : string) (data : list N)
  : res (string * list N) :=
  match todo with
  | O => Ok (os, data)
  | S todo' =>
      b ← load8 data i;
      if N.eqb b 0
      then emit_bits todo' (S i) (os +:+ "0") data
      else emit_bits todo' (S i) (os +:+ "1") (<[i := 0]> data)
  end.

(** [visited] after lines 116-126; [true] when [data[0] != 0] and the
    scan is not run. *)
Definition visited_check (insns_size : N) (data : list N) : res bool :=
  b0 ← load8 data 0;
  if N.eqb b0 0
  then
    let length := N.shiftr insns_size 1 in
    scan_words (S (N.to_nat length)) 0 data
  else Ok true.

(** [MiniTrace::DumpCoverageData(std::ostream& os, ArtMethod* method)].
    Returns the stream and the method as the call leaves them. *)
Definition DumpCoverageData (os : string) (method : option ArtMethod)
  : res (string * option ArtMethod) :=
  match method with
  | None => Ok (os, method)
  | Some m =>
      if negb (Method_IsMiniTraceable m) then Ok (os, method) else
      match GetCodeItem m with
      | None => Ok (os, method)
      | Some code_item =>
          match GetCoverageData m with
          | None => Ok (os, method)
          | Some data =>
              let insns_size := insns_size_of code_item in
              if N.eqb insns_size 0 then Ok (os, method) else
              visited ← visited_check insns_size data;
              if negb visited then Ok (os, method) else
              let os1 := os +:+ line_header m insns_size in
              '(os2, data') ← emit_bits (N.to_nat insns_size) 0 os1 data;
              Ok (os2 +:+ newline, Some (with_coverage m data'))
          end
      end
  end.

End Codec.


(** ** Vocabulary for the dump of one method *)

(** The run of [0]/[1] characters for a sequence of coverage bytes. *)
Fixpoint bitstring (bs : list N) : string :=
  match bs with
  | [] => ""
  | b :: bs' => String (if N.eqb b 0 then "0"%char else "1"%char) (bitstring bs')
  end.

(** The array after the emit loop ran over indices [i .. i+todo-1]. *)
Definition cleared (i todo : nat) (data : list N) : list N :=
  take i data ++ replicate todo 0 ++ drop (i + todo) data.

(** The number of bytes the scan may read: words [0 .. insns_size>>1]. *)
Definition scanned_bytes (insns_size : N) : nat :=
  (4 * S (N.to_nat (N.shiftr insns_size 1)))%nat.


(** ** Reference for the skip decision

    Written after the specification's words, not after the code: the dump
    of one method with no fast path, where the method is skipped exactly
    when every byte the emit loop would report (indices [0] to
    [insns_size - 1]) is zero. *)

(** Is one of [data[i .. i+todo-1]] nonzero? *)
Fixpoint reference_any_nonzero (todo : nat) (i : nat) (data : list N) : res bool :=
  match todo with
  | O => Ok false
  | S todo' =>
      b ← load8 data i;
      if N.eqb b 0 then reference_any_nonzero todo' (S i) data else Ok true
  end.

Section Reference.

Variable PrettyDescriptor : string → string.

Definition reference_DumpCoverageData (os : string) (method : option ArtMethod)
  : res (string * option ArtMethod) :=
  match method with
  | None => Ok (os, method)
  | Some m =>
      if negb (Method_IsMiniTraceable m) then Ok (os, method) else
      match GetCodeItem m with
      | None => Ok (os, method)
      | Some code_item =>
          match GetCoverageData m with
          | None => Ok (os, method)
          | Some data =>
              let insns_size := insns_size_of code_item in
              if N.eqb insns_size 0 then Ok (os, method) else
              visited ← reference_any_nonzero (N.to_nat insns_size) 0 data;
              if negb visited then Ok (os, method) else
              let os1 := os +:+ line_header PrettyDescriptor m insns_size in
              '(os2, data') ← emit_bits (N.to_nat insns_size) 0 os1 data;
              Ok (os2 +:+ newline, Some (with_coverage m data'))
          end
      end
  end.

End Reference.

(** A coverage line appeared: the call put text on the stream. *)
Definition line_emitted (os os' : string) : Prop := os' ≠ os.

(** One of the bytes the emit loop reports, [data[0 .. n-1]], is nonzero. *)
Definition reported_byte_nonzero (n : nat) (data : list N) : Prop :=
  ∃ i b, (i < n)%nat ∧ data !! i = Some b ∧ b ≠ 0.

(** The array holds one byte per granule of two instruction units. *)
Definition one_byte_per_granule (insns_size : N) (data : list N) : Prop :=
  length data = N.to_nat ((insns_size + 1) / 2).

(** ** Sample inputs *)

(** A traceable method [LFoo;->run()V] with [n] code units and the
    coverage array [data]. *)
Definition sample_method (n : N) (data : list N) : ArtMethod :=
  {| method_address := 255;
     Method_IsMiniTraceable := true;
     GetCodeItem := Some {| InsnsSizeInCodeUnits := n |};
     GetCoverageData := Some data;
     GetDeclaringClassDescriptor := "LFoo;";
     GetName := "run";
     GetSignature := "()V";
     GetDeclaringClassSourceFile := "Foo.java" |}.

(** [PrettyDescriptor] on the descriptor of a class in the default package
    with a one-word name: [LFoo;] becomes [Foo]. *)
Definition sample_PrettyDescriptor (descriptor : string) : string :=
  match descriptor with
  | String "L" rest => substring 0 (String.length rest - 1) rest
  | _ => descriptor
  end.

(** Zero on the two bytes the emit loop reports, nonzero on the next byte
    of the first scanned word. *)
Definition overscan_data : list N := [0; 0; 1; 0; 0; 0; 0; 0].

(** Three reported bytes, all zero, and a nonzero byte at the start of
    the second scanned word. *)
Definition overscan_data_3 : list N := [0; 0; 0; 0; 9; 0; 0; 0].

(** Twelve bytes for four code units: the words the scan may read. *)
Definition sample_data : list N := [0; 7; 0; 0; 0; 0; 0; 0; 0; 0; 0; 0].

(** ** Classes *)

(** A [mirror::Class] as this file queries it. [Class_IsMiniTraceable] is
    the flag behind [IsMiniTraceable] / [SetIsMiniTraceable];
    [stubs_installed] records that [Instrumentation::InstallStubsForClass]
    was run on the class by this file. *)
Record mirror_Class : Type := {
  IsArrayClass : bool;
  IsInterface : bool;
  IsPrimitive : bool;
  IsProxyClass : bool;
  GetDexFileLocation : string;
  Class_IsMiniTraceable : bool;
  stubs_installed : bool;
  GetDeclaredMethods : list ArtMethod
}.

Definition SetIsMiniTraceable (klass : mirror_Class) : mirror_Class :=
  {| IsArrayClass := IsArrayClass klass;
     IsInterface := IsInterface klass;
     IsPrimitive := IsPrimitive klass;
     IsProxyClass := IsProxyClass klass;
     GetDexFileLocation := GetDexFileLocation klass;
     Class_IsMiniTraceable := true;
     stubs_installed := stubs_installed klass;
     GetDeclaredMethods := GetDeclaredMethods klass |}.

Definition InstallStubsForClass (klass : mirror_Class) : mirror_Class :=
  {| IsArrayClass := IsArrayClass klass;
     IsInterface := IsInterface klass;
     IsPrimitive := IsPrimitive klass;
     IsProxyClass := IsProxyClass klass;
     GetDexFileLocation := GetDexFileLocation klass;
     Class_IsMiniTraceable := Class_IsMiniTraceable klass;
     stubs_installed := true;
     GetDeclaredMethods := GetDeclaredMethods klass |}.

Definition with_methods (klass : mirror_Class) (ms : list ArtMethod) : mirror_Class :=
  {| IsArrayClass := IsArrayClass klass;
     IsInterface := IsInterface klass;
     IsPrimitive := IsPrimitive klass;
     IsProxyClass := IsProxyClass klass;
     GetDexFileLocation := GetDexFileLocation klass;
     Class_IsMiniTraceable := Class_IsMiniTraceable klass;
     stubs_installed := stubs_installed klass;
     GetDeclaredMethods := ms |}.

(** [strlen] and [strncmp] of the C library, on strings whose terminating
    NUL is left implicit: the comparison looks at no more than [n]
    characters and stops after a NUL. *)
Definition strlen (s : string) : nat := String.length s.

Definition char_code (c : ascii) : Z := Z.of_nat (nat_of_ascii c).

Fixpoint strncmp (s1 s2 : string) (n : nat) {struct n} : Z :=
  match n with
  | O => 0%Z
  | S n' =>
      match s1, s2 with
      | EmptyString, EmptyString => 0%Z
      | EmptyString, String c2 _ => (0 - char_code c2)%Z
      | String c1 _, EmptyString => char_code c1
      | String c1 s1', String c2 s2' =>
          if Z.eqb (char_code c1) (char_code c2)
          then if Z.eqb (char_code c1) 0 then 0%Z else strncmp s1' s2' n'
          else (char_code c1 - char_code c2)%Z
      end
  end.

(** The class-kind test of line 343. *)
Definition excluded_kind (klass : mirror_Class) : bool :=
  IsArrayClass klass || IsInterface klass || IsPrimitive klass || IsProxyClass klass.

(** [MiniTrace::PostClassPrepare(klass)], as a function of the class object
    it updates; [active] is what [IsMiniTraceActive()] returns during the
    call. *)
Definition PostClassPrepare (active : bool) (klass : mirror_Class) : mirror_Class :=
  if excluded_kind klass then klass else
  let prefix := "/system/framework/" in
  let location := GetDexFileLocation klass in
  if Z.eqb (strncmp location prefix (strlen prefix)) 0 then klass else
  let klass := SetIsMiniTraceable klass in
  if active then InstallStubsForClass klass else klass.

(** ** The runtime as MiniTrace sees it *)

(** [new MiniTrace()]: the object has no data members. *)
Inductive MiniTrace : Type := MiniTrace_object.

Inductive LogSeverity : Type := INFO | ERROR.

(** The part of [instrumentation::Instrumentation] this file drives. *)
Record Instrumentation : Type := {
  listeners : list MiniTrace;
  method_tracing : bool
}.

(** A regular file; [openable] tells whether opening it succeeds. *)
Record File : Type := {
  contents : string;
  openable : bool
}.

(** The process and the file system behind [OS::] and [unix_file::FdFile]:
    the files by path, whether creating, writing and flushing succeed, and
    what [getuid()], [getpid()] and [MilliTime()] return. *)
Record OS : Type := {
  files : gmap string File;
  create_ok : bool;
  write_ok : bool;
  flush_ok : bool;
  getuid : N;
  getpid : N;
  MilliTime : N
}.

Definition with_files (os : OS) (fs : gmap string File) : OS :=
  {| files := fs;
     create_ok := create_ok os;
     write_ok := write_ok os;
     flush_ok := flush_ok os;
     getuid := getuid os;
     getpid := getpid os;
     MilliTime := MilliTime os |}.

Record Runtime : Type := {
  the_trace_ : option MiniTrace;
  instrumentation : Instrumentation;
  classes : list mirror_Class;
  os_state : OS;
  log : list (LogSeverity * string)
}.

Definition IsMiniTraceActive (rt : Runtime) : bool :=
  match the_trace_ rt with Some _ => true | None => false end.

Definition LOG (sev : LogSeverity) (msg : string) (rt : Runtime) : Runtime :=
  {| the_trace_ := the_trace_ rt;
     instrumentation := instrumentation rt;
     classes := classes rt;
     os_state := os_state rt;
     log := log rt ++ [(sev, msg)] |}.

Definition set_the_trace (t : option MiniTrace) (rt : Runtime) : Runtime :=
  {| the_trace_ := t;
     instrumentation := instrumentation rt;
     classes := classes rt;
     os_state := os_state rt;
     log := log rt |}.

Definition set_instrumentation (i : Instrumentation) (rt : Runtime) : Runtime :=
  {| the_trace_ := the_trace_ rt;
     instrumentation := i;
     classes := classes rt;
     os_state := os_state rt;
     log := log rt |}.

Definition set_classes (cs : list mirror_Class) (rt : Runtime) : Runtime :=
  {| the_trace_ := the_trace_ rt;
     instrumentation := instrumentation rt;
     classes := cs;
     os_state := os_state rt;
     log := log rt |}.

Definition set_files (fs : gmap string File) (rt : Runtime) : Runtime :=
  {| the_trace_ := the_trace_ rt;
     instrumentation := instrumentation rt;
     classes := classes rt;
     os_state := with_files (os_state rt) fs;
     log := log rt |}.

(** [Instrumentation]'s methods are defined in instrumentation.cc. The
    model keeps what this file asks of them: [AddListener] and
    [RemoveListener] register and deregister the listener,
    [EnableMethodTracing] and [DisableMethodTracing] switch the tracing
    mode, and [InstallStubsForClass] (above) is recorded on the class. *)
Definition AddListener (t : MiniTrace) (i : Instrumentation) : Instrumentation :=
  {| listeners := t :: listeners i; method_tracing := method_tracing i |}.

Definition RemoveListener (t : MiniTrace) (i : Instrumentation) : Instrumentation :=
  {| listeners := tail (listeners i); method_tracing := method_tracing i |}.

Definition EnableMethodTracing (i : Instrumentation) : Instrumentation :=
  {| listeners := listeners i; method_tracing := true |}.

Definition DisableMethodTracing (i : Instrumentation) : Instrumentation :=
  {| listeners := listeners i; method_tracing := false |}.

(** [ClassLinker::VisitClasses] with a visitor that always returns [true]:
    every element is visited once, in order, and the visitor may fault. *)
Fixpoint visit_all {S A : Type} (visitor : S → A → res (S * A)) (s : S) (l : list A)
  : res (S * list A) :=
  match l with
  | [] => Ok (s, [])
  | a :: l' =>
      '(s1, a1) ← visitor s a;
      '(s2, l2) ← visit_all visitor s1 l';
      Ok (s2, a1 :: l2)
  end.

(** A 32-bit unsigned value read as an [int], as the ["%d"] conversion
    does with the [uid_t] it is handed: values from 2^31 on come out
    negative. *)
Definition to_int32 (n : N) : Z :=
  let m := (Z.of_N n mod 4294967296)%Z in
  if (m <? 2147483648)%Z then m else (m - 4294967296)%Z.

(** [StringPrintf("/data/mini_trace_%d_coverage.dat", getuid())]. *)
Definition coverage_data_filename (os : OS) : string :=
  "/data/mini_trace_" +:+ pretty (to_int32 (getuid os)) +:+ "_coverage.dat".

(** [os << trace_base_filename << getuid() << "_config.in"]: the stream
    prints the [uid_t] as an unsigned decimal. *)
Definition trace_config_filename (os : OS) : string :=
  "/data/mini_trace_" +:+ pretty (getuid os) +:+ "_config.in".

(** [OS::FileExists]. *)
Definition FileExists (os : OS) (name : string) : bool :=
  bool_decide (is_Some (files os !! name)).

(** [std::ifstream in(name)] followed by [!in]'s negation: the stream opened. *)
Definition ifstream_opens (os : OS) (name : string) : bool :=
  match files os !! name with
  | Some f => openable f
  | None => false
  end.

(** Lines 155-160: [OS::OpenFileWithFlags(name, O_RDWR | O_APPEND)] when
    the file exists, [OS::CreateEmptyFile(name)] otherwise; [None] is the
    null handle. *)
Definition open_or_create (os : OS) (name : string) : option File :=
  match files os !! name with
  | Some f => if openable f then Some f else None
  | None =>
      if create_ok os
      then Some {| contents := ""; openable := true |}
      else None
  end.

(** The envelope line of a record. *)
Definition envelope (kind : string) (os : OS) : string :=
  kind +:+ tab +:+ pretty (getpid os) +:+ tab +:+ pretty (MilliTime os) +:+ newline.

Section Lifecycle.

Variable PrettyDescriptor : string → string.

(** [DumpCoverageDataClassVisitor::operator()]. *)
Definition DumpCoverageDataClassVisitor (os : string) (klass : mirror_Class)
  : res (string * mirror_Class) :=
  if negb (Class_IsMiniTraceable klass) then Ok (os, klass) else
  '(os', methods) ←
    visit_all
      (fun os method =>
         '(os', method') ← DumpCoverageData PrettyDescriptor os (Some method);
         Ok (os', default method method'))
      os (GetDeclaredMethods klass);
  Ok (os', with_methods klass methods).

(** [MiniTrace::DumpCoverageData(bool start)].

    The file is opened for appending when it exists and created empty
    otherwise; [WriteFully] puts the text after what the file holds;
    [Erase] leaves the file empty. *)
Definition DumpCoverageData_record (start : bool) (rt : Runtime) : res Runtime :=
  if negb (IsMiniTraceActive rt) then Ok rt else
  let name := coverage_data_filename (os_state rt) in
  match open_or_create (os_state rt) name with
  | None => Ok (LOG INFO ("Failed to open coverage data file " +:+ name) rt)
  | Some f =>
      let rt := set_files (<[name := f]> (files (os_state rt))) rt in
      '(os, rt) ←
        (if start
         then
           let rt := LOG INFO "MiniTrace: Try to start coverage data" rt in
           Ok (envelope "Start" (os_state rt), rt)
         else
           let rt := LOG INFO "MiniTrace: Try to dump coverage data" rt in
           let os := envelope "Dump" (os_state rt) in
           '(os, cs) ← visit_all DumpCoverageDataClassVisitor os (classes rt);
           Ok (os, set_classes cs rt));
      let data := os in
      if negb (write_ok (os_state rt)) then
        let rt := LOG INFO ("Failed to write coverage data file " +:+ name) rt in
        Ok (set_files (<[name := {| contents := ""; openable := openable f |}]>
                         (files (os_state rt))) rt)
      else
        let rt :=
          set_files (<[name := {| contents := contents f +:+ data;
                                  openable := openable f |}]>
                       (files (os_state rt))) rt in
        if negb (flush_ok (os_state rt)) then
          let rt := LOG INFO ("Failed to flush coverage data file " +:+ name) rt in
          Ok (set_files (<[name := {| contents := ""; openable := openable f |}]>
                           (files (os_state rt))) rt)
        else Ok rt
  end.

(** [MiniTrace::Start()]. *)
Definition Start (rt : Runtime) : res Runtime :=
  let rt := LOG INFO "MiniTrace: Try to start" rt in
  if IsMiniTraceActive rt then
    Ok (LOG ERROR "Trace already in progress, ignoring this request" rt)
  else
  let name := trace_config_filename (os_state rt) in
  if negb (FileExists (os_state rt) name) then
    Ok (LOG INFO ("MiniTrace: config file " +:+ name +:+ " does not exist") rt)
  else if negb (ifstream_opens (os_state rt) name) then
    Ok (LOG INFO ("MiniTrace: config file " +:+ name +:+ " exists but can't be opened") rt)
  else
  let rt :=
    if IsMiniTraceActive rt then
      LOG ERROR "Trace already in progress, ignoring this request" rt
    else
      let rt := set_the_trace (Some MiniTrace_object) rt in
      let rt := set_instrumentation (AddListener MiniTrace_object (instrumentation rt)) rt in
      let rt := set_instrumentation (EnableMethodTracing (instrumentation rt)) rt in
      set_classes (PostClassPrepare (IsMiniTraceActive rt) <$> classes rt) rt in
  DumpCoverageData_record true rt.

(** [MiniTrace::Stop()]. *)
Definition Stop (rt : Runtime) : res Runtime :=
  let '(the_trace, rt) :=
    match the_trace_ rt with
    | None =>
        (None, LOG ERROR "Trace stop requested, but no trace currently running" rt)
    | Some t => (Some t, set_the_trace None rt)
    end in
  let rt :=
    match the_trace with
    | Some t =>
        let rt := set_instrumentation (DisableMethodTracing (instrumentation rt)) rt in
        set_instrumentation (RemoveListener t (instrumentation rt)) rt
    | None => rt
    end in
  DumpCoverageData_record false rt.

(** [MiniTrace::Shutdown()]. *)
Definition Shutdown (rt : Runtime) : res Runtime :=
  if IsMiniTraceActive rt then Stop rt else Ok rt.

(** [MiniTraceClassLoadCallback::ClassPrepare] for the class at index
    [k] of the class table. *)
Definition ClassPrepare (k : nat) (rt : Runtime) : Runtime :=
  set_classes (alter (PostClassPrepare (IsMiniTraceActive rt)) k (classes rt)) rt.

End Lifecycle.

(** ** Vocabulary for the lifecycle *)

(** Eligibility in the specification's words: the class is no array class,
    no interface, no primitive class and no proxy class, and the location
    of its dex file does not begin with [/system/framework/]. *)
Definition eligible (klass : mirror_Class) : bool :=
  negb (IsArrayClass klass) && negb (IsInterface klass) &&
  negb (IsPrimitive klass) && negb (IsProxyClass klass) &&
  negb (String.prefix "/system/framework/" (GetDexFileLocation klass)).

(** No character of the string is NUL. *)
Fixpoint no_NUL (s : string) : bool :=
  match s with
  | EmptyString => true
  | String c s' => negb (Z.eqb (char_code c) 0) && no_NUL s'
  end.

(** A class as the class linker hands it over for the first time. *)
Definition new_class (klass : mirror_Class) : mirror_Class :=
  {| IsArrayClass := IsArrayClass klass;
     IsInterface := IsInterface klass;
     IsPrimitive := IsPrimitive klass;
     IsProxyClass := IsProxyClass klass;
     GetDexFileLocation := GetDexFileLocation klass;
     Class_IsMiniTraceable := false;
     stubs_installed := false;
     GetDeclaredMethods := GetDeclaredMethods klass |}.

(** Two runtimes that differ in the log at most. *)
Definition same_but_log (rt rt' : Runtime) : Prop :=
  the_trace_ rt' = the_trace_ rt ∧
  instrumentation rt' = instrumentation rt ∧
  classes rt' = classes rt ∧
  os_state rt' = os_state rt.

(** What the coverage file holds; nothing when it does not exist. *)
Definition coverage_file_contents (rt : Runtime) : string :=
  match files (os_state rt) !! coverage_data_filename (os_state rt) with
  | Some f => contents f
  | None => ""
  end.

(** Between [rt] and [rt'] a record with a [Dump] envelope was put at the
    end of the coverage file. *)
Definition dump_envelope_written (rt rt' : Runtime) : bool :=
  String.prefix (coverage_file_contents rt +:+ envelope "Dump" (os_state rt))
                (coverage_file_contents rt')
  && bool_decide (is_Some (files (os_state rt') !! coverage_data_filename (os_state rt'))).

(** No class marked traceable outside the eligible ones, and no stubs
    installed on such a class. *)
Definition excluded_untouched (rt : Runtime) : Prop :=
  Forall
    (fun c => eligible c = false →
              Class_IsMiniTraceable c = false ∧ stubs_installed c = false)
    (classes rt).

(** The class at index [k] of the class table is marked traceable. *)
Definition marked (k : nat) (rt : Runtime) : Prop :=
  ∃ c, classes rt !! k = Some c ∧ Class_IsMiniTraceable c = true.

(** A class that differs from another in its methods at most. *)
Definition same_class_but_methods (c c' : mirror_Class) : Prop :=
  ∃ ms, c' = with_methods c ms.

(** How a class may change over a call: its eligibility stays, a mark
    stays, and an ineligible class keeps its mark and its stubs as they
    were. *)
Definition class_evolves (c c' : mirror_Class) : Prop :=
  eligible c' = eligible c ∧
  (Class_IsMiniTraceable c = true → Class_IsMiniTraceable c' = true) ∧
  (eligible c = false →
   Class_IsMiniTraceable c' = Class_IsMiniTraceable c ∧
   stubs_installed c' = stubs_installed c).

(** An ineligible class is neither marked nor instrumented. *)
Definition untouched_if_excluded (c : mirror_Class) : Prop :=
  eligible c = false → Class_IsMiniTraceable c = false ∧ stubs_installed c = false.

(** The calls that reach MiniTrace from the rest of the runtime. *)
Inductive Op : Type :=
  | OpStart
  | OpStop
  | OpShutdown
  | OpDumpCoverageData
  | OpClassPrepare (k : nat)
  | OpClassLoad (klass : mirror_Class)
  | OpEnvironment (os : OS).

Section Runs.

Variable PrettyDescriptor : string → string.

Definition step (op : Op) (rt : Runtime) : res Runtime :=
  match op with
  | OpStart => Start PrettyDescriptor rt
  | OpStop => Stop PrettyDescriptor rt
  | OpShutdown => Shutdown PrettyDescriptor rt
  | OpDumpCoverageData => DumpCoverageData_record PrettyDescriptor false rt
  | OpClassPrepare k => Ok (ClassPrepare k rt)
  | OpClassLoad klass =>
      let rt := set_classes (classes rt ++ [new_class klass]) rt in
      Ok (ClassPrepare (length (classes rt) - 1) rt)
  | OpEnvironment os =>
      Ok {| the_trace_ := the_trace_ rt;
            instrumentation := instrumentation rt;
            classes := classes rt;
            os_state := os;
            log := log rt |}
  end.

Fixpoint run (ops : list Op) (rt : Runtime) : res Runtime :=
  match ops with
  | [] => Ok rt
  | op :: ops' => rt' ← step op rt; run ops' rt'
  end.

End Runs.

(** ** Sample runtimes *)

(** An application class with one method of four code units whose second
    byte was set by execution. *)
Definition sample_app_class : mirror_Class :=
  {| IsArrayClass := false;
     IsInterface := false;
     IsPrimitive := false;
     IsProxyClass := false;
     GetDexFileLocation := "/data/app/com.example/base.apk";
     Class_IsMiniTraceable := false;
     stubs_installed := false;
     GetDeclaredMethods := [sample_method 4 [0; 7; 0; 0; 0; 0; 0; 0; 0; 0; 0; 0]] |}.

(** A class of the platform. *)
Definition sample_framework_class : mirror_Class :=
  {| IsArrayClass := false;
     IsInterface := false;
     IsPrimitive := false;
     IsProxyClass := false;
     GetDexFileLocation := "/system/framework/framework.jar";
     Class_IsMiniTraceable := false;
     stubs_installed := false;
     GetDeclaredMethods := [] |}.

Definition sample_OS (fs : gmap string File) : OS :=
  {| files := fs;
     create_ok := true;
     write_ok := true;
     flush_ok := true;
     getuid := 10001;
     getpid := 4242;
     MilliTime := 1000 |}.

(** The trigger file of user 10001. *)
Definition sample_trigger : gmap string File :=
  {[ "/data/mini_trace_10001_config.in" := {| contents := ""; openable := true |} ]}.

(** No session; the trigger file is there. *)
Definition sample_idle : Runtime :=
  {| the_trace_ := None;
     instrumentation := {| listeners := []; method_tracing := false |};
     classes := [sample_app_class; sample_framework_class];
     os_state := sample_OS sample_trigger;
     log := [] |}.

(** No session and no trigger file. *)
Definition sample_untriggered : Runtime :=
  {| the_trace_ := None;
     instrumentation := {| listeners := []; method_tracing := false |};
     classes := [sample_app_class; sample_framework_class];
     os_state := sample_OS ∅;
     log := [] |}.

(** A session is running: [sample_idle] after [Start]. *)
Definition sample_tracing : Runtime :=
  {| the_trace_ := Some MiniTrace_object;
     instrumentation := {| listeners := [MiniTrace_object]; method_tracing := true |};
     classes := [InstallStubsForClass (SetIsMiniTraceable sample_app_class);
                 sample_framework_class];
     os_state :=
       sample_OS
         (<[ "/data/mini_trace_10001_coverage.dat" :=
               {| contents := envelope "Start" (sample_OS ∅); openable := true |} ]>
            sample_trigger);
     log := [] |}.

(** ** Vocabulary for the walk and for runs *)

(** [data'] is [data] with some bytes set to zero. *)
Definition only_cleared (data data' : list N) : Prop :=
  length data' = length data ∧
  ∀ i b, data' !! i = Some b → b = 0 ∨ data !! i = Some b.

(** [m'] is [m], or [m] with some coverage bytes set to zero. *)
Definition method_only_cleared (m m' : ArtMethod) : Prop :=
  m' = m ∨
  ∃ data data',
    GetCoverageData m = Some data ∧ m' = with_coverage m data' ∧ only_cleared data data'.

(** [c'] is [c] with coverage bytes of its methods set to zero, and is [c]
    itself when [c] is not marked traceable. *)
Definition class_only_cleared (c c' : mirror_Class) : Prop :=
  (∃ ms, c' = with_methods c ms ∧ Forall2 method_only_cleared (GetDeclaredMethods c) ms) ∧
  (Class_IsMiniTraceable c = false → c' = c).

(** A method on which the emit loop would find nothing to report: if it
    gets past the early returns, [data[0 .. insns_size-1]] are all zero. *)
Definition method_drained (m : ArtMethod) : Prop :=
  ∀ ci data,
    Method_IsMiniTraceable m = true →
    GetCodeItem m = Some ci →
    GetCoverageData m = Some data →
    insns_size_of ci ≠ 0 →
    ∀ i, (i < N.to_nat (insns_size_of ci))%nat → data !! i = Some 0.

(** Every method a walk visits in the class is drained. *)
Definition class_drained (c : mirror_Class) : Prop :=
  Class_IsMiniTraceable c = true → Forall method_drained (GetDeclaredMethods c).

(** The listener is registered and method tracing is on exactly while a
    session exists. *)
Definition session_consistent (rt : Runtime) : Prop :=
  instrumentation rt =
    if IsMiniTraceActive rt
    then {| listeners := [MiniTrace_object]; method_tracing := true |}
    else {| listeners := []; method_tracing := false |}.

(** Stubs are installed on marked classes only. *)
Definition stubs_only_on_marked (rt : Runtime) : Prop :=
  Forall (fun c => stubs_installed c = true → Class_IsMiniTraceable c = true)
         (classes rt).

(** How one call may change a class: its methods' coverage, and what
    [PostClassPrepare] does to it. *)
Definition class_step (c c' : mirror_Class) : Prop :=
  ∃ ms, c' = with_methods c ms ∨ ∃ active, c' = with_methods (PostClassPrepare active c) ms.

(** The methods of the classes, class by class. *)
Definition all_methods (rt : Runtime) : list (list ArtMethod) :=
  GetDeclaredMethods <$> classes rt.

(** A session is running and the coverage file is there, holding a [Start]
    record; no class is marked. *)
Definition sample_unmarked : Runtime :=
  {| the_trace_ := Some MiniTrace_object;
     instrumentation := {| listeners := [MiniTrace_object]; method_tracing := true |};
     classes := [sample_app_class; sample_framework_class];
     os_state := os_state sample_tracing;
     log := [] |}.

(** A session is running; the coverage file can be neither opened nor
    created. *)
Definition sample_no_file : Runtime :=
  {| the_trace_ := Some MiniTrace_object;
     instrumentation := {| listeners := [MiniTrace_object]; method_tracing := true |};
     classes := classes sample_tracing;
     os_state :=
       {| files := sample_trigger;
          create_ok := false;
          write_ok := true;
          flush_ok := true;
          getuid := 10001;
          getpid := 4242;
          MilliTime := 1000 |};
     log := [] |}.

(** No session; the trigger file is there, the coverage file can be
    neither opened nor created. *)
Definition sample_idle_no_file : Runtime :=
  {| the_trace_ := None;
     instrumentation := {| listeners := []; method_tracing := false |};
     classes := [sample_app_class; sample_framework_class];
     os_state := os_state sample_no_file;
     log := [] |}.

(** A session is running; writing to the coverage file fails. *)
Definition sample_write_fails : Runtime :=
  {| the_trace_ := Some MiniTrace_object;
     instrumentation := {| listeners := [MiniTrace_object]; method_tracing := true |};
     classes := classes sample_tracing;
     os_state :=
       {| files := files (os_state sample_tracing);
          create_ok := true;
          write_ok := false;
          flush_ok := true;
          getuid := 10001;
          getpid := 4242;
          MilliTime := 1000 |};
     log := [] |}.

Section RecordText.

Variable PrettyDescriptor : string → string.

(** The text of a record and the class table once the text is built:
    lines 168-181 of [DumpCoverageData(bool start)]. *)
Definition record_text (start : bool) (rt : Runtime) : res (string * list mirror_Class) :=
  if start
  then Ok (envelope "Start" (os_state rt), classes rt)
  else visit_all (DumpCoverageDataClassVisitor PrettyDescriptor)
         (envelope "Dump" (os_state rt)) (classes rt).

End RecordText.

(** The coverage file after a record was attempted on the open file [f]:
    the text behind what [f] held when writing and flushing succeed, an
    empty file otherwise. *)
Definition file_after_record (os : OS) (f : File) (text : string) : File :=
  {| contents := if write_ok os && flush_ok os then contents f +:+ text else "";
     openable := openable f |}.
(** ** Proof steps for [res] *)

(** Expose the [match] behind a bind of [res]. *)
Ltac unfold_res := unfold mbind, res_bind, mret, res_ret.
Tactic Notation "unfold_res" "in" hyp(H) := unfold mbind, res_bind, mret, res_ret in H.

(** ** Text on the stream *)

Lemma append_nil_r (s : string) : s +:+ "" = s.
Proof. induction s as [|c s IH]; [done|]. unfold append; fold append. by rewrite IH. Qed.

Lemma append_assoc (s1 s2 s3 : string) : (s1 +:+ s2) +:+ s3 = s1 +:+ (s2 +:+ s3).
Proof.
  induction s1 as [|c s1 IH]; [done|].
  unfold append; fold append. by rewrite IH.
Qed.

Lemma length_append (s1 s2 : string) :
  String.length (s1 +:+ s2) = (String.length s1 + String.length s2)%nat.
Proof.
  induction s1 as [|c s1 IH]; [done|].
  unfold append; fold append. simpl. by rewrite IH.
Qed.

Lemma append_cons (c : ascii) (s : string) : String c "" +:+ s = String c s.
Proof. done. Qed.

(** Appending text that is not empty changes the stream. *)
Lemma append_neq (s t : string) : t ≠ "" → s +:+ t ≠ s.
Proof.
  intros Ht Heq. apply (f_equal String.length) in Heq.
  rewrite length_append in Heq. destruct t; [done|]. simpl in Heq. lia.
Qed.

Lemma bitstring_length (bs : list N) : String.length (bitstring bs) = length bs.
Proof. induction bs as [|b bs IH]; simpl; [done|]. by rewrite IH. Qed.

Lemma bitstring_get (bs : list N) (i : nat) (b : N) :
  bs !! i = Some b →
  get i (bitstring bs) = Some (if N.eqb b 0 then "0"%char else "1"%char).
Proof.
  revert i. induction bs as [|b' bs IH]; intros [|i] Hi; simplify_eq/=; [done|].
  by apply IH.
Qed.

(** ** The two loops *)

Lemma emit_bits_in_bounds (todo i : nat) (os : string) (data : list N) :
  (i + todo ≤ length data)%nat →
  emit_bits todo i os data =
    Ok (os +:+ bitstring (take todo (drop i data)), cleared i todo data).
Proof.
  revert i os data. induction todo as [|todo IH]; intros i os data Hlen.
  - simpl. unfold cleared. rewrite append_nil_r, Nat.add_0_r. simpl.
    by rewrite take_drop.
  - destruct (lookup_lt_is_Some_2 data i) as [b Hb]; [lia|].
    assert (Hdrop : drop i data = b :: drop (S i) data)
      by (by apply drop_S).
    assert (Hstep : emit_bits (S todo) i os data =
              emit_bits todo (S i)
                (os +:+ String (if N.eqb b 0 then "0"%char else "1"%char) "")
                (<[i := 0]> data)).
    { simpl. unfold load8. rewrite Hb. simpl.
      destruct (N.eqb_spec b 0) as [->|Hne]; [|done].
      by rewrite (list_insert_id data i 0). }
    rewrite Hstep, IH by (rewrite length_insert; lia).
    rewrite Hdrop. simpl. rewrite append_assoc, append_cons.
    rewrite drop_insert_lt by lia.
    f_equal. f_equal. unfold cleared.
    rewrite (take_S_r (<[i:=0]> data) i 0)
      by (apply list_lookup_insert_eq; lia).
    rewrite take_insert_ge by lia.
    rewrite drop_insert_lt by lia.
    rewrite <- app_assoc. simpl.
    by rewrite Nat.add_succ_r.
Qed.

Lemma emit_bits_out_of_bounds (todo i : nat) (os : string) (data : list N) :
  (length data < i + todo)%nat → (0 < todo)%nat →
  emit_bits todo i os data = OutOfBounds.
Proof.
  revert i os data. induction todo as [|todo IH]; intros i os data Hlen Hpos; [lia|].
  simpl. unfold load8. destruct (data !! i) as [b|] eqn:Hb; [|done].
  apply lookup_lt_Some in Hb.
  simpl. destruct (N.eqb b 0); apply IH; rewrite ?length_insert; lia.
Qed.

Lemma cleared_length (i todo : nat) (data : list N) :
  (i + todo ≤ length data)%nat → length (cleared i todo data) = length data.
Proof.
  intros H. unfold cleared.
  rewrite !length_app, length_take, length_replicate, length_drop. lia.
Qed.

Lemma cleared_lookup_in (todo : nat) (data : list N) (j : nat) :
  (todo ≤ length data)%nat → (j < todo)%nat → cleared 0 todo data !! j = Some 0.
Proof.
  intros Hlen Hj. unfold cleared. rewrite take_0. simpl.
  rewrite lookup_app_l by (rewrite length_replicate; lia).
  by apply lookup_replicate_2.
Qed.

Lemma cleared_lookup_out (todo : nat) (data : list N) (j : nat) :
  (todo ≤ length data)%nat → (todo ≤ j)%nat → cleared 0 todo data !! j = data !! j.
Proof.
  intros Hlen Hj. unfold cleared. rewrite take_0. simpl.
  rewrite lookup_app_r by (rewrite length_replicate; lia).
  rewrite length_replicate, lookup_drop. f_equal. lia.
Qed.


(** ** The fast-path scan *)

Lemma load32_Ok_inv (data : list N) (i : nat) (w : N) :
  load32 data i = Ok w →
  ∃ b0 b1 b2 b3,
    data !! (4 * i)%nat = Some b0 ∧ data !! (4 * i + 1)%nat = Some b1 ∧
    data !! (4 * i + 2)%nat = Some b2 ∧ data !! (4 * i + 3)%nat = Some b3 ∧
    w = N.lor b0 (N.lor (N.shiftl b1 8) (N.lor (N.shiftl b2 16) (N.shiftl b3 24))).
Proof.
  unfold load32, load8. unfold_res.
  destruct (data !! (4 * i)%nat) as [b0|]; [|done].
  destruct (data !! (4 * i + 1)%nat) as [b1|]; [|done].
  destruct (data !! (4 * i + 2)%nat) as [b2|]; [|done].
  destruct (data !! (4 * i + 3)%nat) as [b3|]; [|done].
  intros [= <-]. by exists b0, b1, b2, b3.
Qed.

Lemma word_eq_0 (b0 b1 b2 b3 : N) :
  N.lor b0 (N.lor (N.shiftl b1 8) (N.lor (N.shiftl b2 16) (N.shiftl b3 24))) = 0
  ↔ b0 = 0 ∧ b1 = 0 ∧ b2 = 0 ∧ b3 = 0.
Proof. rewrite !N.lor_eq_0_iff, !N.shiftl_eq_0_iff. tauto. Qed.

(** Byte [j] belongs to the 32-bit word [i]. *)
Lemma byte_of_word (i j : nat) :
  (4 * i ≤ j < 4 * i + 4)%nat →
  j = (4 * i)%nat ∨ j = (4 * i + 1)%nat ∨ j = (4 * i + 2)%nat ∨ j = (4 * i + 3)%nat.
Proof. lia. Qed.

Lemma load32_Ok_zero (data : list N) (i : nat) :
  load32 data i = Ok 0 ↔ ∀ j, (4 * i ≤ j < 4 * i + 4)%nat → data !! j = Some 0.
Proof.
  split.
  - intros H j Hj. apply load32_Ok_inv in H as (b0 & b1 & b2 & b3 & H0 & H1 & H2 & H3 & Hw).
    symmetry in Hw. apply word_eq_0 in Hw as (-> & -> & -> & ->).
    destruct (byte_of_word i j Hj) as [-> | [-> | [-> | ->]]]; done.
  - intros H. unfold load32, load8. unfold_res.
    rewrite !H by lia. done.
Qed.

Lemma load32_Ok_nonzero (data : list N) (i : nat) (w : N) :
  load32 data i = Ok w → w ≠ 0 →
  ∃ j b, (4 * i ≤ j < 4 * i + 4)%nat ∧ data !! j = Some b ∧ b ≠ 0.
Proof.
  intros H Hw. apply load32_Ok_inv in H as (b0 & b1 & b2 & b3 & H0 & H1 & H2 & H3 & ->).
  rewrite word_eq_0 in Hw.
  destruct (N.eq_dec b0 0) as [->|?]; [|exists (4 * i)%nat, b0; split_and!; [lia..|done|done]].
  destruct (N.eq_dec b1 0) as [->|?]; [|exists (4 * i + 1)%nat, b1; split_and!; [lia..|done|done]].
  destruct (N.eq_dec b2 0) as [->|?]; [|exists (4 * i + 2)%nat, b2; split_and!; [lia..|done|done]].
  destruct (N.eq_dec b3 0) as [->|?]; [|exists (4 * i + 3)%nat, b3; split_and!; [lia..|done|done]].
  tauto.
Qed.

Lemma load32_in_bounds (data : list N) (i : nat) :
  (4 * i + 4 ≤ length data)%nat → ∃ w, load32 data i = Ok w.
Proof.
  intros Hlen. unfold load32, load8. unfold_res.
  destruct (lookup_lt_is_Some_2 data (4 * i)) as [b0 ->]; [lia|].
  destruct (lookup_lt_is_Some_2 data (4 * i + 1)) as [b1 ->]; [lia|].
  destruct (lookup_lt_is_Some_2 data (4 * i + 2)) as [b2 ->]; [lia|].
  destruct (lookup_lt_is_Some_2 data (4 * i + 3)) as [b3 ->]; [lia|].
  eauto.
Qed.

(** The scan answers "not visited" exactly when every byte of the words it
    covers is there and is zero. *)
Lemma scan_words_false (todo i : nat) (data : list N) :
  scan_words todo i data = Ok false
  ↔ ∀ j, (4 * i ≤ j < 4 * (i + todo))%nat → data !! j = Some 0.
Proof.
  revert i. induction todo as [|todo IH]; intros i.
  - simpl. split; [intros _ j Hj; lia|done].
  - simpl. unfold_res. destruct (load32 data i) as [w|] eqn:Hw.
    + destruct (N.eqb_spec w 0) as [->|Hne].
      * rewrite IH. rewrite load32_Ok_zero in Hw. split.
        -- intros H j Hj. destruct (decide (j < 4 * i + 4)%nat); [apply Hw|apply H]; lia.
        -- intros H j Hj. apply H. lia.
      * split; [done|]. intros H.
        destruct (load32_Ok_nonzero _ _ _ Hw Hne) as (j & b & Hj & Hb & Hb0).
        rewrite H in Hb by lia. congruence.
    + split; [done|]. intros H.
      destruct (load32_in_bounds data i) as [w Hw']; [|congruence].
      assert (is_Some (data !! (4 * i + 3)%nat)) as Hs by (rewrite H; [done|lia]).
      apply lookup_lt_is_Some_1 in Hs. lia.
Qed.

(** The scan answers "visited" only for a nonzero byte in the words it covers. *)
Lemma scan_words_true (todo i : nat) (data : list N) :
  scan_words todo i data = Ok true →
  ∃ j b, (4 * i ≤ j < 4 * (i + todo))%nat ∧ data !! j = Some b ∧ b ≠ 0.
Proof.
  revert i. induction todo as [|todo IH]; intros i; [done|].
  simpl. unfold_res. destruct (load32 data i) as [w|] eqn:Hw; [|done].
  destruct (N.eqb_spec w 0) as [->|Hne].
  - intros H. destruct (IH _ H) as (j & b & Hj & Hb). exists j, b. split; [lia|done].
  - intros _. destruct (load32_Ok_nonzero _ _ _ Hw Hne) as (j & b & Hj & Hb).
    exists j, b. split; [lia|done].
Qed.

Lemma scan_words_in_bounds (todo i : nat) (data : list N) :
  (4 * (i + todo) ≤ length data)%nat → ∃ v, scan_words todo i data = Ok v.
Proof.
  revert i. induction todo as [|todo IH]; intros i Hlen; [by exists false|].
  simpl. destruct (load32_in_bounds data i) as [w ->]; [lia|].
  unfold_res. destruct (N.eqb w 0); [apply IH; lia|by exists true].
Qed.

(** Every byte the emit loop reports lies in a scanned word. *)
Lemma insns_size_lt_scanned_bytes (insns_size : N) :
  (N.to_nat insns_size < scanned_bytes insns_size)%nat.
Proof.
  unfold scanned_bytes. rewrite N.shiftr_div_pow2. change (2 ^ 1) with 2.
  pose proof (N.Div0.mod_eq insns_size 2).
  pose proof (N.mod_lt insns_size 2). lia.
Qed.

(** The half-length of the scan is below the emit loop's bound. *)
Lemma half_length_lt (insns_size : N) :
  insns_size ≠ 0 → (N.to_nat (N.shiftr insns_size 1) < N.to_nat insns_size)%nat.
Proof.
  intros Hn. rewrite N.shiftr_div_pow2. change (2 ^ 1) with 2.
  pose proof (N.div_mod' insns_size 2) as Hdiv.
  assert (insns_size `mod` 2 < 2) as Hmod by (by apply N.mod_lt).
  generalize dependent (insns_size `div` 2).
  generalize dependent (insns_size `mod` 2). intros. lia.
Qed.

Lemma visited_check_false (insns_size : N) (data : list N) :
  visited_check insns_size data = Ok false
  ↔ ∀ j, (j < scanned_bytes insns_size)%nat → data !! j = Some 0.
Proof.
  unfold visited_check, load8, scanned_bytes. unfold_res.
  destruct (data !! 0%nat) as [b0|] eqn:H0.
  - destruct (N.eqb_spec b0 0) as [->|Hne].
    + rewrite scan_words_false. split; intros H j Hj; apply H; lia.
    + split; [done|]. intros H. rewrite H in H0 by lia. congruence.
  - split; [done|]. intros H. rewrite H in H0 by lia. done.
Qed.

Lemma visited_check_true (insns_size : N) (data : list N) :
  visited_check insns_size data = Ok true →
  ∃ j b, (j < scanned_bytes insns_size)%nat ∧ data !! j = Some b ∧ b ≠ 0.
Proof.
  unfold visited_check, load8, scanned_bytes. unfold_res.
  destruct (data !! 0%nat) as [b0|] eqn:H0; [|done].
  destruct (N.eqb_spec b0 0) as [->|Hne].
  - intros H. apply scan_words_true in H as (j & b & Hj & Hb). exists j, b. split; [lia|done].
  - intros _. exists 0%nat, b0. split; [lia|done].
Qed.

Lemma visited_check_in_bounds (insns_size : N) (data : list N) :
  (scanned_bytes insns_size ≤ length data)%nat →
  ∃ v, visited_check insns_size data = Ok v.
Proof.
  unfold scanned_bytes. intros Hlen. unfold visited_check, load8. unfold_res.
  destruct (lookup_lt_is_Some_2 data 0) as [b0 ->]; [lia|].
  destruct (N.eqb b0 0); [apply scan_words_in_bounds; lia|by exists true].
Qed.

(** With [data[0] != 0] the scan is not run. *)
Lemma visited_check_first_byte (insns_size : N) (data : list N) (b0 : N) :
  data !! 0%nat = Some b0 → b0 ≠ 0 → visited_check insns_size data = Ok true.
Proof.
  intros H0 Hne. unfold visited_check, load8. unfold_res. rewrite H0.
  by destruct (N.eqb_spec b0 0).
Qed.

(** ** The reference scan *)

Lemma reference_any_nonzero_false (todo i : nat) (data : list N) :
  reference_any_nonzero todo i data = Ok false
  ↔ ∀ j, (i ≤ j < i + todo)%nat → data !! j = Some 0.
Proof.
  revert i. induction todo as [|todo IH]; intros i.
  - simpl. split; [intros _ j Hj; lia|done].
  - simpl. unfold load8. unfold_res. destruct (data !! i) as [b|] eqn:Hb.
    + destruct (N.eqb_spec b 0) as [->|Hne].
      * rewrite IH. split.
        -- intros H j Hj. destruct (decide (j = i)) as [->|]; [done|apply H; lia].
        -- intros H j Hj. apply H. lia.
      * split; [done|]. intros H. rewrite H in Hb by lia. congruence.
    + split; [done|]. intros H. rewrite H in Hb by lia. done.
Qed.

Lemma reference_any_nonzero_in_bounds (todo i : nat) (data : list N) :
  (i + todo ≤ length data)%nat → ∃ v, reference_any_nonzero todo i data = Ok v.
Proof.
  revert i. induction todo as [|todo IH]; intros i Hlen; [by exists false|].
  simpl. unfold load8. unfold_res.
  destruct (lookup_lt_is_Some_2 data i) as [b ->]; [lia|].
  destruct (N.eqb b 0); [apply IH; lia|by exists true].
Qed.

(** Bytes that are all zero print as a run of [0]. *)
Lemma take_all_zero (n : nat) (data : list N) :
  (∀ i, (i < n)%nat → data !! i = Some 0) → take n data = replicate n 0.
Proof.
  intros H. apply list_eq. intros i.
  destruct (decide (i < n)%nat) as [Hi|Hi].
  - rewrite lookup_take_lt by done. rewrite H by done.
    symmetry. by apply lookup_replicate_2.
  - rewrite lookup_take_ge by lia. symmetry.
    apply lookup_ge_None. rewrite length_replicate. lia.
Qed.

Lemma cleared_all_zero (n : nat) (data : list N) :
  (∀ i, (i < n)%nat → data !! i = Some 0) → cleared 0 n data = data.
Proof.
  intros H. unfold cleared. rewrite take_0. simpl.
  rewrite <- (take_all_zero n data H). apply take_drop.
Qed.

(** ** The dump of one method *)

Section CodecTheorems.

Variable PrettyDescriptor : string → string.

Lemma with_coverage_same (m : ArtMethod) (data : list N) :
  GetCoverageData m = Some data → with_coverage m data = m.
Proof. destruct m; simpl; intros ->; done. Qed.

(** What the call does on a method that gets past the four early returns,
    in terms of [visited_check] and [emit_bits]. *)
Lemma DumpCoverageData_unfold (os : string) (m : ArtMethod) (ci : CodeItem) (data : list N) :
  Method_IsMiniTraceable m = true →
  GetCodeItem m = Some ci →
  GetCoverageData m = Some data →
  insns_size_of ci ≠ 0 →
  DumpCoverageData PrettyDescriptor os (Some m) =
    (visited ← visited_check (insns_size_of ci) data;
     if negb visited then Ok (os, Some m) else
     '(os2, data') ← emit_bits (N.to_nat (insns_size_of ci)) 0
                       (os +:+ line_header PrettyDescriptor m (insns_size_of ci)) data;
     Ok (os2 +:+ newline, Some (with_coverage m data'))).
Proof.
  intros Ht Hc Hd Hn. unfold DumpCoverageData. rewrite Ht, Hc, Hd. simpl.
  by destruct (N.eqb_spec (insns_size_of ci) 0).
Qed.

(** The line, once the skip checks are passed and the array covers the
    emit loop. *)
Lemma DumpCoverageData_line (os : string) (m : ArtMethod) (ci : CodeItem) (data : list N) :
  Method_IsMiniTraceable m = true →
  GetCodeItem m = Some ci →
  GetCoverageData m = Some data →
  insns_size_of ci ≠ 0 →
  visited_check (insns_size_of ci) data = Ok true →
  (N.to_nat (insns_size_of ci) ≤ length data)%nat →
  DumpCoverageData PrettyDescriptor os (Some m) =
    Ok (os +:+ line_header PrettyDescriptor m (insns_size_of ci)
           +:+ bitstring (take (N.to_nat (insns_size_of ci)) data) +:+ newline,
        Some (with_coverage m (cleared 0 (N.to_nat (insns_size_of ci)) data))).
Proof.
  intros Ht Hc Hd Hn Hv Hlen.
  rewrite (DumpCoverageData_unfold os m ci data) by done.
  rewrite Hv. simpl. rewrite emit_bits_in_bounds by (simpl; lia). simpl.
  by rewrite !append_assoc.
Qed.

(** The same call when the array ends before the emit loop does. *)
Lemma DumpCoverageData_line_out_of_bounds
    (os : string) (m : ArtMethod) (ci : CodeItem) (data : list N) :
  Method_IsMiniTraceable m = true →
  GetCodeItem m = Some ci →
  GetCoverageData m = Some data →
  insns_size_of ci ≠ 0 →
  visited_check (insns_size_of ci) data = Ok true →
  (length data < N.to_nat (insns_size_of ci))%nat →
  DumpCoverageData PrettyDescriptor os (Some m) = OutOfBounds.
Proof.
  intros Ht Hc Hd Hn Hv Hlen.
  rewrite (DumpCoverageData_unfold os m ci data) by done.
  rewrite Hv. simpl. rewrite emit_bits_out_of_bounds; [done|simpl; lia|lia].
Qed.

(** A skipped method: nothing on the stream, nothing stored. *)
Lemma DumpCoverageData_skip (os : string) (m : ArtMethod) (ci : CodeItem) (data : list N) :
  Method_IsMiniTraceable m = true →
  GetCodeItem m = Some ci →
  GetCoverageData m = Some data →
  insns_size_of ci ≠ 0 →
  visited_check (insns_size_of ci) data = Ok false →
  DumpCoverageData PrettyDescriptor os (Some m) = Ok (os, Some m).
Proof.
  intros Ht Hc Hd Hn Hv.
  rewrite (DumpCoverageData_unfold os m ci data) by done. by rewrite Hv.
Qed.

(** The call completes whenever the array covers the scanned words. *)
Lemma DumpCoverageData_in_bounds (os : string) (m : ArtMethod) (ci : CodeItem) (data : list N) :
  GetCodeItem m = Some ci →
  GetCoverageData m = Some data →
  (scanned_bytes (insns_size_of ci) ≤ length data)%nat →
  ∃ os' data',
    DumpCoverageData PrettyDescriptor os (Some m) = Ok (os', Some (with_coverage m data')) ∧
    length data' = length data.
Proof.
  intros Hc Hd Hlen.
  pose proof (insns_size_lt_scanned_bytes (insns_size_of ci)) as Hlt.
  assert (Hskip : ∃ os' data', Ok (os, Some m) = Ok (os', Some (with_coverage m data'))
                               ∧ length data' = length data).
  { exists os, data. by rewrite with_coverage_same. }
  destruct (Method_IsMiniTraceable m) eqn:Ht;
    [|unfold DumpCoverageData; by rewrite Ht].
  destruct (N.eq_dec (insns_size_of ci) 0) as [Hz|Hn].
  { unfold DumpCoverageData. rewrite Ht, Hc, Hd. simpl.
    apply N.eqb_eq in Hz. by rewrite Hz. }
  destruct (visited_check_in_bounds _ _ Hlen) as [[|] Hv].
  - rewrite (DumpCoverageData_line os m ci data) by (done || lia).
    eexists _, _. split; [done|]. apply cleared_length. simpl. lia.
  - by rewrite (DumpCoverageData_skip os m ci data).
Qed.

End CodecTheorems.

(** ** Properties of the dump of one method *)

Section CodecClaims.

Variable PrettyDescriptor : string → string.

(** C10: [DumpCoverageData(os, method)] puts nothing on the stream and
    leaves the method, its coverage bytes included, as it was whenever
    the method is null, is not traceable, has no code item, has a null
    coverage array, or has an instruction count of zero. *)
Theorem DumpCoverageData_early_return (os : string) (method : option ArtMethod) :
  (method = None ∨
   ∃ m, method = Some m ∧
     (Method_IsMiniTraceable m = false ∨
      GetCodeItem m = None ∨
      GetCoverageData m = None ∨
      ∃ ci, GetCodeItem m = Some ci ∧ insns_size_of ci = 0)) →
  DumpCoverageData PrettyDescriptor os method = Ok (os, method).
Proof.
  intros [->|(m & -> & H)]; [done|].
  unfold DumpCoverageData.
  destruct (Method_IsMiniTraceable m); [|done]. simpl.
  destruct (GetCodeItem m) as [ci|]; [|done].
  destruct (GetCoverageData m) as [data|]; [|done].
  destruct H as [?|[?|[?|(ci' & [= <-] & Hz)]]]; try done.
  by rewrite Hz.
Qed.

(** C4: for a method that passes the skip checks, the run of [0]/[1]
    characters written after the header has exactly [insns_size]
    characters, the count printed in the header; character [i] is [1]
    exactly when [data[i]] was nonzero, for every [i] from [0] to
    [insns_size - 1]; the count is the emit loop's own bound and exceeds
    the half-length [insns_size >> 1] of the skip scan. *)
Theorem DumpCoverageData_bitstring
    (os : string) (m : ArtMethod) (ci : CodeItem) (data : list N) :
  Method_IsMiniTraceable m = true →
  GetCodeItem m = Some ci →
  GetCoverageData m = Some data →
  insns_size_of ci ≠ 0 →
  visited_check (insns_size_of ci) data = Ok true →
  (N.to_nat (insns_size_of ci) ≤ length data)%nat →
  let n := N.to_nat (insns_size_of ci) in
  let bits := bitstring (take n data) in
  DumpCoverageData PrettyDescriptor os (Some m) =
    Ok (os +:+ line_header PrettyDescriptor m (insns_size_of ci) +:+ bits +:+ newline,
        Some (with_coverage m (cleared 0 n data))) ∧
  String.length bits = n ∧
  (∀ i b, (i < n)%nat → data !! i = Some b →
          get i bits = Some (if N.eqb b 0 then "0"%char else "1"%char)) ∧
  (N.to_nat (N.shiftr (insns_size_of ci) 1) < String.length bits)%nat.
Proof.
  intros Ht Hc Hd Hn Hv Hlen n bits.
  assert (Hbits : String.length bits = n).
  { unfold bits. rewrite bitstring_length, length_take. lia. }
  split_and!.
  - by apply DumpCoverageData_line.
  - done.
  - intros i b Hi Hb. unfold bits. apply bitstring_get.
    by rewrite lookup_take_lt.
  - rewrite Hbits. by apply half_length_lt.
Qed.

End CodecClaims.

Lemma DumpCoverageData_early_return_witness :
  DumpCoverageData sample_PrettyDescriptor "" (Some (sample_method 0 [1; 0; 0; 0]))
  = Ok ("", Some (sample_method 0 [1; 0; 0; 0])).
Proof.
  apply DumpCoverageData_early_return.
  right. eexists. split; [reflexivity|].
  right. right. right. eexists. split; reflexivity.
Defined.

Lemma DumpCoverageData_bitstring_witness :
  DumpCoverageData sample_PrettyDescriptor "" (Some (sample_method 4 [0; 7; 0; 0])) =
    Ok ("0xff" +:+ tab +:+ "Foo" +:+ tab +:+ "run" +:+ tab +:+ "()V" +:+ tab +:+
        "Foo.java" +:+ tab +:+ "4" +:+ tab +:+ "0100" +:+ newline,
        Some (sample_method 4 [0; 0; 0; 0])).
Proof.
  refine (proj1 (DumpCoverageData_bitstring sample_PrettyDescriptor ""
                   (sample_method 4 [0; 7; 0; 0]) {| InsnsSizeInCodeUnits := 4 |}
                   [0; 7; 0; 0] _ _ _ _ _ _)).
  - reflexivity.
  - reflexivity.
  - reflexivity.
  - vm_compute. discriminate.
  - reflexivity.
  - vm_compute. lia.
Defined.

Section CodecDraining.

Variable PrettyDescriptor : string → string.

(** The outcomes of a completed call on a method that gets past the
    early returns: either the method was skipped and every scanned byte
    is zero, or the line was written and the reported bytes cleared. *)
Lemma DumpCoverageData_Ok_inv
    (os : string) (m : ArtMethod) (ci : CodeItem) (data : list N)
    (os1 : string) (m1 : option ArtMethod) :
  Method_IsMiniTraceable m = true →
  GetCodeItem m = Some ci →
  GetCoverageData m = Some data →
  insns_size_of ci ≠ 0 →
  DumpCoverageData PrettyDescriptor os (Some m) = Ok (os1, m1) →
  (visited_check (insns_size_of ci) data = Ok false ∧ os1 = os ∧ m1 = Some m) ∨
  (visited_check (insns_size_of ci) data = Ok true ∧
   (N.to_nat (insns_size_of ci) ≤ length data)%nat ∧
   os1 = os +:+ line_header PrettyDescriptor m (insns_size_of ci)
            +:+ bitstring (take (N.to_nat (insns_size_of ci)) data) +:+ newline ∧
   m1 = Some (with_coverage m (cleared 0 (N.to_nat (insns_size_of ci)) data))).
Proof.
  intros Ht Hc Hd Hn Hrun.
  destruct (visited_check (insns_size_of ci) data) as [[|]|] eqn:Hv.
  - right. destruct (decide (N.to_nat (insns_size_of ci) ≤ length data)%nat) as [Hlen|Hlen].
    + rewrite (DumpCoverageData_line _ os m ci data) in Hrun by done.
      by simplify_eq.
    + rewrite (DumpCoverageData_line_out_of_bounds _ os m ci data) in Hrun by (done || lia).
      done.
  - left. rewrite (DumpCoverageData_skip _ os m ci data) in Hrun by done.
    by simplify_eq.
  - rewrite (DumpCoverageData_unfold _ os m ci data) in Hrun by done.
    by rewrite Hv in Hrun.
Qed.

Lemma line_changes_stream (os : string) (m : ArtMethod) (n : N) (rest : string) :
  line_emitted os (os +:+ line_header PrettyDescriptor m n +:+ rest).
Proof. apply append_neq. done. Qed.

(** X15: for a traceable method with a coverage array and a
    nonzero instruction count whose dump completes, a coverage line
    appears whenever one of the bytes [data[0 .. insns_size-1]] was
    nonzero; after the dump every one of these bytes is zero and the
    bytes behind them are as before; dumping the method again changes
    nothing in the array and writes no [1]: it writes nothing, or a line
    whose run is all [0]. The second dump completes when the array covers
    the scanned words. *)
Theorem DumpCoverageData_drains
    (os : string) (m : ArtMethod) (ci : CodeItem) (data : list N)
    (os1 : string) (m1 : option ArtMethod) :
  Method_IsMiniTraceable m = true →
  GetCodeItem m = Some ci →
  GetCoverageData m = Some data →
  insns_size_of ci ≠ 0 →
  DumpCoverageData PrettyDescriptor os (Some m) = Ok (os1, m1) →
  let n := N.to_nat (insns_size_of ci) in
  (reported_byte_nonzero n data → line_emitted os os1) ∧
  (∃ data1,
      m1 = Some (with_coverage m data1) ∧
      length data1 = length data ∧
      (∀ i, (i < n)%nat → data1 !! i = Some 0) ∧
      (∀ i, (n ≤ i)%nat → data1 !! i = data !! i)) ∧
  (∀ os2 m2,
      DumpCoverageData PrettyDescriptor os1 m1 = Ok (os2, m2) →
      m2 = m1 ∧
      (os2 = os1 ∨
       os2 = os1 +:+ line_header PrettyDescriptor m (insns_size_of ci)
                 +:+ bitstring (replicate n 0) +:+ newline)) ∧
  ((scanned_bytes (insns_size_of ci) ≤ length data)%nat →
   ∃ os2, DumpCoverageData PrettyDescriptor os1 m1 = Ok (os2, m1)).
Proof.
  intros Ht Hc Hd Hn Hrun n.
  pose proof (insns_size_lt_scanned_bytes (insns_size_of ci)) as Hlt.
  (* the array after the first dump *)
  assert (Hafter : ∃ data1,
      m1 = Some (with_coverage m data1) ∧
      length data1 = length data ∧
      (∀ i, (i < n)%nat → data1 !! i = Some 0) ∧
      (∀ i, (n ≤ i)%nat → data1 !! i = data !! i)).
  { destruct (DumpCoverageData_Ok_inv os m ci data os1 m1) as
      [(Hv & -> & ->)|(Hv & Hlen & -> & ->)]; try done.
    - exists data. rewrite with_coverage_same by done. split_and!; try done.
      intros i Hi. rewrite visited_check_false in Hv. apply Hv. unfold n in Hi. lia.
    - exists (cleared 0 n data). split_and!; try done.
      + apply cleared_length. simpl. done.
      + intros i Hi. by apply cleared_lookup_in.
      + intros i Hi. by apply cleared_lookup_out. }
  split_and!; [|done| |].
  - intros (i & b & Hi & Hb & Hb0).
    destruct (DumpCoverageData_Ok_inv os m ci data os1 m1) as
      [(Hv & _)|(_ & _ & -> & _)]; try done.
    + rewrite visited_check_false in Hv. rewrite Hv in Hb by (unfold n in Hi; lia).
      congruence.
    + apply line_changes_stream.
  - destruct Hafter as (data1 & -> & Hlen1 & Hzero & _).
    intros os2 m2 Hrun2.
    destruct (DumpCoverageData_Ok_inv os1 (with_coverage m data1) ci data1 os2 m2) as
      [(_ & -> & ->)|(_ & _ & -> & ->)]; try done.
    + by split; [|left].
    + fold n. rewrite (cleared_all_zero n data1 Hzero), (take_all_zero n data1 Hzero).
      split; [|right]; [|done]. by rewrite with_coverage_same.
  - intros Hlen. destruct Hafter as (data1 & -> & Hlen1 & Hzero & _).
    destruct (DumpCoverageData_in_bounds PrettyDescriptor os1
                (with_coverage m data1) ci data1) as (os2 & data2 & Hrun2 & _);
      [done|done|lia|].
    exists os2. rewrite Hrun2.
    destruct (DumpCoverageData_Ok_inv os1 (with_coverage m data1) ci data1 os2
                (Some (with_coverage (with_coverage m data1) data2))) as
      [(_ & _ & <-)|(_ & _ & _ & Heq)]; try done.
    rewrite Heq. fold n. rewrite (cleared_all_zero n data1 Hzero).
    by rewrite with_coverage_same.
Qed.

(** X16: the fast path never hides coverage. A method is
    skipped only if every byte [data[0 .. insns_size-1]] is zero, and
    whenever the method is skipped, or one of these bytes is nonzero, the
    stream and the array are exactly those of the same function with the
    skip test replaced by a scan of the bytes [data[0 .. insns_size-1]]. *)
Theorem fast_path_refines_reference
    (os : string) (m : ArtMethod) (ci : CodeItem) (data : list N)
    (os1 : string) (m1 : option ArtMethod) :
  Method_IsMiniTraceable m = true →
  GetCodeItem m = Some ci →
  GetCoverageData m = Some data →
  insns_size_of ci ≠ 0 →
  DumpCoverageData PrettyDescriptor os (Some m) = Ok (os1, m1) →
  let n := N.to_nat (insns_size_of ci) in
  (os1 = os → ∀ i, (i < n)%nat → data !! i = Some 0) ∧
  (os1 = os ∨ reported_byte_nonzero n data →
   reference_DumpCoverageData PrettyDescriptor os (Some m) = Ok (os1, m1)).
Proof.
  intros Ht Hc Hd Hn Hrun n.
  pose proof (insns_size_lt_scanned_bytes (insns_size_of ci)) as Hlt.
  assert (Href : reference_DumpCoverageData PrettyDescriptor os (Some m) =
    (visited ← reference_any_nonzero n 0 data;
     if negb visited then Ok (os, Some m) else
     '(os2, data') ← emit_bits n 0 (os +:+ line_header PrettyDescriptor m (insns_size_of ci)) data;
     Ok (os2 +:+ newline, Some (with_coverage m data')))).
  { unfold reference_DumpCoverageData. rewrite Ht, Hc, Hd. simpl.
    by destruct (N.eqb_spec (insns_size_of ci) 0). }
  destruct (DumpCoverageData_Ok_inv os m ci data os1 m1) as
    [(Hv & -> & ->)|(Hv & Hlen & -> & ->)]; try done.
  - rewrite visited_check_false in Hv.
    assert (Hzero : ∀ i, (i < n)%nat → data !! i = Some 0)
      by (intros i Hi; apply Hv; unfold n in Hi; lia).
    split; [done|]. intros _. rewrite Href.
    assert (reference_any_nonzero n 0 data = Ok false) as ->; [|done].
    apply reference_any_nonzero_false. intros j Hj. apply Hzero. lia.
  - split.
    + intros Heq. by apply line_changes_stream in Heq.
    + intros [Heq|(i & b & Hi & Hb & Hb0)]; [by apply line_changes_stream in Heq|].
      rewrite Href.
      destruct (reference_any_nonzero_in_bounds n 0 data) as [[|] Hr]; [simpl; done| |].
      * rewrite Hr. simpl. rewrite emit_bits_in_bounds by (simpl; done). simpl.
        by rewrite !append_assoc.
      * rewrite reference_any_nonzero_false in Hr. rewrite Hr in Hb by lia. congruence.
Qed.

(** C5 (amended): the emit loop, which reads and clears
    [data[0 .. insns_size-1]], stays inside the array exactly when the
    array holds at least [insns_size] bytes; with that many bytes and
    [data[0]] nonzero, so that the skip scan is not run, the whole dump of
    the method stays inside the array. *)
Theorem emit_loop_in_bounds
    (os : string) (m : ArtMethod) (ci : CodeItem) (data : list N) :
  GetCodeItem m = Some ci →
  GetCoverageData m = Some data →
  let n := N.to_nat (insns_size_of ci) in
  (is_Ok (emit_bits n 0 os data) = true ↔ (n ≤ length data)%nat) ∧
  ((n ≤ length data)%nat →
   ∀ b0, data !! 0%nat = Some b0 → b0 ≠ 0 →
         is_Ok (DumpCoverageData PrettyDescriptor os (Some m)) = true).
Proof.
  intros Hc Hd n. split.
  - destruct (decide (n ≤ length data)%nat) as [Hlen|Hlen].
    + rewrite emit_bits_in_bounds by (simpl; done). done.
    + rewrite emit_bits_out_of_bounds by (unfold n in *; simpl; lia). done.
  - intros Hlen b0 Hb0 Hne.
    destruct (Method_IsMiniTraceable m) eqn:Ht;
      [|unfold DumpCoverageData; by rewrite Ht].
    destruct (N.eq_dec (insns_size_of ci) 0) as [Hz|Hn].
    { unfold DumpCoverageData. rewrite Ht, Hc, Hd. simpl.
      apply N.eqb_eq in Hz. by rewrite Hz. }
    rewrite (DumpCoverageData_line _ os m ci data); try done.
    by apply (visited_check_first_byte _ _ b0).
Qed.

End CodecDraining.

(** ** The location test *)

Lemma char_code_inj (c1 c2 : ascii) : char_code c1 = char_code c2 → c1 = c2.
Proof.
  unfold char_code. intros H. apply Nat2Z.inj in H.
  rewrite <- (ascii_nat_embedding c1), <- (ascii_nat_embedding c2). by rewrite H.
Qed.

(** [strncmp(s, p, strlen(p)) == 0] says that [s] begins with [p]. *)
Lemma strncmp_prefix (p s : string) :
  no_NUL p = true →
  Z.eqb (strncmp s p (strlen p)) 0 = String.prefix p s.
Proof.
  unfold strlen. revert s. induction p as [|c p IH]; intros s Hp.
  { by destruct s. }
  simpl in Hp. apply andb_true_iff in Hp as [Hc Hp].
  apply negb_true_iff, Z.eqb_neq in Hc.
  destruct s as [|c' s]; simpl.
  - apply Z.eqb_neq. lia.
  - destruct (Z.eqb_spec (char_code c') (char_code c)) as [Heq|Hne].
    + apply char_code_inj in Heq as ->.
      destruct (Z.eqb_spec (char_code c) 0) as [?|_]; [done|].
      destruct (ascii_dec c c); [|done]. by apply IH.
    + destruct (ascii_dec c c') as [->|_]; [done|].
      apply Z.eqb_neq. lia.
Qed.

(** ** PostClassPrepare *)

Lemma PostClassPrepare_eligible (active : bool) (klass : mirror_Class) :
  PostClassPrepare active klass =
    if eligible klass
    then if active
         then InstallStubsForClass (SetIsMiniTraceable klass)
         else SetIsMiniTraceable klass
    else klass.
Proof.
  unfold PostClassPrepare, eligible, excluded_kind.
  rewrite strncmp_prefix by done.
  destruct (IsArrayClass klass), (IsInterface klass), (IsPrimitive klass),
    (IsProxyClass klass); simpl; try done.
  by destruct (String.prefix _ _).
Qed.

Lemma PostClassPrepare_eligible_eq (active : bool) (klass : mirror_Class) :
  eligible (PostClassPrepare active klass) = eligible klass.
Proof.
  rewrite PostClassPrepare_eligible.
  destruct (eligible klass) eqn:E; [|done]. by destruct active.
Qed.

Lemma PostClassPrepare_flag (active : bool) (klass : mirror_Class) :
  Class_IsMiniTraceable (PostClassPrepare active klass) =
    Class_IsMiniTraceable klass || eligible klass.
Proof.
  rewrite PostClassPrepare_eligible.
  destruct (eligible klass); [|by rewrite orb_false_r].
  rewrite orb_true_r. by destruct active.
Qed.

Lemma PostClassPrepare_stubs (active : bool) (klass : mirror_Class) :
  stubs_installed (PostClassPrepare active klass) =
    stubs_installed klass || (eligible klass && active).
Proof.
  rewrite PostClassPrepare_eligible.
  destruct (eligible klass); [|by rewrite orb_false_r].
  destruct active; simpl; [by rewrite orb_true_r|by rewrite orb_false_r].
Qed.

Lemma PostClassPrepare_idempotent (active : bool) (klass : mirror_Class) :
  PostClassPrepare active (PostClassPrepare active klass) = PostClassPrepare active klass.
Proof.
  rewrite (PostClassPrepare_eligible active (PostClassPrepare active klass)).
  rewrite PostClassPrepare_eligible_eq.
  rewrite (PostClassPrepare_eligible active klass).
  destruct (eligible klass); [|done]. by destruct active.
Qed.

(** ** Walks over the class table *)

Lemma visit_all_Forall2 {S A : Type} (R : A → A → Prop)
    (visitor : S → A → res (S * A)) (s : S) (l : list A) (s' : S) (l' : list A) :
  (∀ s a s' a', visitor s a = Ok (s', a') → R a a') →
  visit_all visitor s l = Ok (s', l') →
  Forall2 R l l'.
Proof.
  intros HR. revert s s' l'. induction l as [|a l IH]; intros s s' l' H.
  - simpl in H. simplify_eq. constructor.
  - simpl in H. unfold_res in H.
    destruct (visitor s a) as [[s1 a1]|] eqn:Hv; [|done].
    destruct (visit_all visitor s1 l) as [[s2 l2]|] eqn:Hl; [|done].
    simplify_eq. constructor; eauto.
Qed.

Lemma with_methods_same (c : mirror_Class) : with_methods c (GetDeclaredMethods c) = c.
Proof. by destruct c. Qed.

Section LifecycleFacts.

Variable PrettyDescriptor : string → string.

Lemma DumpCoverageDataClassVisitor_class (os : string) (c : mirror_Class)
    (os' : string) (c' : mirror_Class) :
  DumpCoverageDataClassVisitor PrettyDescriptor os c = Ok (os', c') →
  same_class_but_methods c c'.
Proof.
  unfold DumpCoverageDataClassVisitor.
  destruct (Class_IsMiniTraceable c); simpl.
  - unfold_res.
    destruct (visit_all _ os (GetDeclaredMethods c)) as [[os1 ms]|]; [|done].
    intros [= <- <-]. by exists ms.
  - intros [= <- <-]. exists (GetDeclaredMethods c). by rewrite with_methods_same.
Qed.

(** The gate of line 148: without a session the call does nothing. *)
Lemma DumpCoverageData_record_inactive (start : bool) (rt : Runtime) :
  the_trace_ rt = None →
  DumpCoverageData_record PrettyDescriptor start rt = Ok rt.
Proof. intros H. unfold DumpCoverageData_record, IsMiniTraceActive. by rewrite H. Qed.

(** A [Start] record leaves the class table alone; a [Dump] record
    changes coverage arrays only. *)
Lemma DumpCoverageData_record_classes (start : bool) (rt rt' : Runtime) :
  DumpCoverageData_record PrettyDescriptor start rt = Ok rt' →
  Forall2 same_class_but_methods (classes rt) (classes rt') ∧
  the_trace_ rt' = the_trace_ rt ∧
  instrumentation rt' = instrumentation rt.
Proof.
  assert (Hrefl : Forall2 same_class_but_methods (classes rt) (classes rt)).
  { apply Forall_Forall2_diag, Forall_forall. intros c _.
    exists (GetDeclaredMethods c). by rewrite with_methods_same. }
  unfold DumpCoverageData_record.
  destruct (IsMiniTraceActive rt); simpl; [|by intros [= <-]].
  destruct (open_or_create _ _) as [f|]; [|by intros [= <-]].
  destruct start; simpl.
  - destruct (write_ok (os_state rt)); simpl;
      [destruct (flush_ok (os_state rt)); simpl|]; by intros [= <-].
  - unfold_res.
    destruct (visit_all _ _ (classes rt)) as [[os cs]|] eqn:Hv; [|done].
    apply (visit_all_Forall2 same_class_but_methods) in Hv;
      [|apply DumpCoverageDataClassVisitor_class].
    simpl.
    destruct (write_ok (os_state rt)); simpl;
      [destruct (flush_ok (os_state rt)); simpl|]; by intros [= <-].
Qed.

End LifecycleFacts.

(** ** Start and Stop *)

Section StartStop.

Variable PrettyDescriptor : string → string.

Lemma Start_active (rt : Runtime) (t : MiniTrace) :
  the_trace_ rt = Some t →
  Start PrettyDescriptor rt =
    Ok (LOG ERROR "Trace already in progress, ignoring this request"
          (LOG INFO "MiniTrace: Try to start" rt)).
Proof. intros H. unfold Start, IsMiniTraceActive. simpl. by rewrite H. Qed.

Lemma Start_no_config (rt : Runtime) :
  the_trace_ rt = None →
  FileExists (os_state rt) (trace_config_filename (os_state rt)) = false →
  Start PrettyDescriptor rt =
    Ok (LOG INFO ("MiniTrace: config file " +:+ trace_config_filename (os_state rt)
                  +:+ " does not exist")
          (LOG INFO "MiniTrace: Try to start" rt)).
Proof.
  intros H Hex. unfold Start, IsMiniTraceActive. simpl. rewrite H. simpl.
  by rewrite Hex.
Qed.

Lemma Start_config_unopenable (rt : Runtime) :
  the_trace_ rt = None →
  FileExists (os_state rt) (trace_config_filename (os_state rt)) = true →
  ifstream_opens (os_state rt) (trace_config_filename (os_state rt)) = false →
  Start PrettyDescriptor rt =
    Ok (LOG INFO ("MiniTrace: config file " +:+ trace_config_filename (os_state rt)
                  +:+ " exists but can't be opened")
          (LOG INFO "MiniTrace: Try to start" rt)).
Proof.
  intros H Hex Hop. unfold Start, IsMiniTraceActive. simpl. rewrite H. simpl.
  by rewrite Hex, Hop.
Qed.

Lemma Stop_inactive (rt : Runtime) :
  the_trace_ rt = None →
  Stop PrettyDescriptor rt =
    Ok (LOG ERROR "Trace stop requested, but no trace currently running" rt).
Proof.
  intros H. unfold Stop. rewrite H.
  by apply DumpCoverageData_record_inactive.
Qed.

(** With a session, [Stop] has cleared [the_trace_] by the time it calls
    [DumpCoverageData(false)]. *)
Lemma Stop_active (rt : Runtime) (t : MiniTrace) :
  the_trace_ rt = Some t →
  Stop PrettyDescriptor rt =
    Ok (set_instrumentation
          (RemoveListener t (DisableMethodTracing (instrumentation rt)))
          (set_the_trace None rt)).
Proof.
  intros H. unfold Stop. rewrite H.
  by rewrite DumpCoverageData_record_inactive.
Qed.

Lemma Stop_leaves_inactive (rt rt' : Runtime) :
  Stop PrettyDescriptor rt = Ok rt' → the_trace_ rt' = None.
Proof.
  destruct (the_trace_ rt) as [t|] eqn:H.
  - rewrite (Stop_active rt t H). by intros [= <-].
  - rewrite (Stop_inactive rt H). by intros [= <-].
Qed.

Lemma Stop_classes (rt rt' : Runtime) :
  Stop PrettyDescriptor rt = Ok rt' → classes rt' = classes rt.
Proof.
  destruct (the_trace_ rt) as [t|] eqn:H.
  - rewrite (Stop_active rt t H). by intros [= <-].
  - rewrite (Stop_inactive rt H). by intros [= <-].
Qed.

End StartStop.

(** ** The coverage file *)

Lemma prefix_length (s1 s2 : string) :
  String.prefix s1 s2 = true → (String.length s1 ≤ String.length s2)%nat.
Proof.
  revert s2. induction s1 as [|c s1 IH]; intros [|c' s2]; simpl; try (done || lia).
  destruct (ascii_dec c c'); [|done]. intros H. apply IH in H. lia.
Qed.

Lemma envelope_length (kind : string) (os : OS) : (0 < String.length (envelope kind os))%nat.
Proof. unfold envelope. rewrite !length_append. simpl. lia. Qed.

Lemma same_but_log_no_envelope (rt rt' : Runtime) :
  same_but_log rt rt' → dump_envelope_written rt rt' = false.
Proof.
  intros (_ & _ & _ & Hos). unfold dump_envelope_written, coverage_file_contents.
  rewrite Hos. apply andb_false_iff. left.
  apply not_true_is_false. intros H%prefix_length.
  rewrite length_append in H.
  pose proof (envelope_length "Dump" (os_state rt)). lia.
Qed.

(** ** The class table over a run *)

Lemma class_evolves_refl (c : mirror_Class) : class_evolves c c.
Proof. done. Qed.

Lemma class_evolves_PostClassPrepare (active : bool) (c : mirror_Class) :
  class_evolves c (PostClassPrepare active c).
Proof.
  unfold class_evolves.
  rewrite PostClassPrepare_eligible_eq, PostClassPrepare_flag, PostClassPrepare_stubs.
  split_and!; [done|by intros ->|].
  intros ->. by rewrite !orb_false_r.
Qed.

Lemma class_evolves_methods (c c' : mirror_Class) :
  same_class_but_methods c c' → class_evolves c c'.
Proof. by intros [ms ->]. Qed.

Lemma class_evolves_trans (c1 c2 c3 : mirror_Class) :
  class_evolves c1 c2 → class_evolves c2 c3 → class_evolves c1 c3.
Proof.
  unfold class_evolves. intros (He1 & Hm1 & Hx1) (He2 & Hm2 & Hx2).
  split_and!; [congruence|auto|].
  intros Hc. destruct (Hx1 Hc) as [? ?].
  destruct Hx2 as [? ?]; [congruence|]. split; congruence.
Qed.

Lemma Forall2_class_evolves_refl (l : list mirror_Class) : Forall2 class_evolves l l.
Proof. apply Forall_Forall2_diag, Forall_forall. intros c _. apply class_evolves_refl. Qed.

Lemma untouched_new_class (active : bool) (klass : mirror_Class) :
  untouched_if_excluded (PostClassPrepare active (new_class klass)).
Proof.
  unfold untouched_if_excluded.
  rewrite PostClassPrepare_eligible_eq, PostClassPrepare_flag, PostClassPrepare_stubs.
  intros ->. done.
Qed.

Section RunFacts.

Variable PrettyDescriptor : string → string.

Lemma DumpCoverageData_record_evolves (start : bool) (rt rt' : Runtime) :
  DumpCoverageData_record PrettyDescriptor start rt = Ok rt' →
  Forall2 class_evolves (classes rt) (classes rt').
Proof.
  intros H. apply DumpCoverageData_record_classes in H as [H _].
  eapply Forall2_impl; [exact H|]. apply class_evolves_methods.
Qed.

Lemma Start_evolves (rt rt' : Runtime) :
  Start PrettyDescriptor rt = Ok rt' →
  Forall2 class_evolves (classes rt) (classes rt').
Proof.
  unfold Start. simpl.
  destruct (IsMiniTraceActive _) eqn:Hact.
  { intros [= <-]. apply Forall2_class_evolves_refl. }
  destruct (FileExists _ _); simpl;
    [|intros [= <-]; apply Forall2_class_evolves_refl].
  destruct (ifstream_opens _ _); simpl;
    [|intros [= <-]; apply Forall2_class_evolves_refl].
  intros H. apply DumpCoverageData_record_evolves in H. simpl in H.
  eapply Forall2_trans; [apply class_evolves_trans| |exact H].
  apply Forall2_fmap_r, Forall_Forall2_diag, Forall_forall.
  intros c _. apply class_evolves_PostClassPrepare.
Qed.

(** One call changes the class table by letting classes evolve and,
    for a class load, by putting one prepared class behind them. *)
Lemma step_classes (op : Op) (rt rt' : Runtime) :
  step PrettyDescriptor op rt = Ok rt' →
  ∃ l1 l2,
    classes rt' = (l1 ++ l2)%list ∧
    Forall2 class_evolves (classes rt) l1 ∧
    Forall untouched_if_excluded l2.
Proof.
  assert (Hsame : ∀ l : list mirror_Class,
            Forall2 class_evolves (classes rt) l →
            ∃ l1 l2, l = (l1 ++ l2)%list ∧ Forall2 class_evolves (classes rt) l1 ∧
                     Forall untouched_if_excluded l2).
  { intros l Hl. exists l, []. by rewrite app_nil_r. }
  destruct op as [| | | |k|klass|os]; simpl; intros H.
  - apply Hsame. by apply Start_evolves.
  - apply Hsame. apply Stop_classes in H. rewrite H. apply Forall2_class_evolves_refl.
  - apply Hsame. unfold Shutdown in H. destruct (IsMiniTraceActive rt).
    + apply Stop_classes in H. rewrite H. apply Forall2_class_evolves_refl.
    + simplify_eq. apply Forall2_class_evolves_refl.
  - apply Hsame. by apply DumpCoverageData_record_evolves in H.
  - apply Hsame. simplify_eq. simpl.
    apply Forall2_alter_r; [apply Forall2_class_evolves_refl|].
    intros x y _ _ Hxy. eapply class_evolves_trans; [exact Hxy|].
    apply class_evolves_PostClassPrepare.
  - simplify_eq. simpl.
    exists (classes rt), [PostClassPrepare (IsMiniTraceActive rt) (new_class klass)].
    split_and!.
    + rewrite length_app. simpl.
      replace (length (classes rt) + 1 - 1)%nat with (length (classes rt) + 0)%nat by lia.
      by rewrite alter_app_r.
    + apply Forall2_class_evolves_refl.
    + constructor; [apply untouched_new_class|constructor].
  - apply Hsame. simplify_eq. apply Forall2_class_evolves_refl.
Qed.

Lemma step_excluded_untouched (op : Op) (rt rt' : Runtime) :
  step PrettyDescriptor op rt = Ok rt' →
  excluded_untouched rt → excluded_untouched rt'.
Proof.
  intros H Hinv. apply step_classes in H as (l1 & l2 & Heq & Hev & Hnew).
  unfold excluded_untouched in *. rewrite Heq. apply Forall_app. split; [|done].
  eapply Forall2_Forall_r; [exact Hev|].
  eapply Forall_impl; [exact Hinv|]. cbv beta.
  intros c Hc c' (He & _ & Hx) He'. rewrite He in He'.
  destruct (Hx He') as [-> ->]. by apply Hc.
Qed.

Lemma step_marked (op : Op) (rt rt' : Runtime) (k : nat) :
  step PrettyDescriptor op rt = Ok rt' →
  marked k rt → marked k rt'.
Proof.
  intros H (c & Hk & Hc). apply step_classes in H as (l1 & l2 & Heq & Hev & _).
  destruct (Forall2_lookup_l _ _ _ _ _ Hev Hk) as (c' & Hk' & (_ & Hm & _)).
  exists c'. split; [|by apply Hm].
  rewrite Heq. by apply lookup_app_l_Some.
Qed.

Lemma run_excluded_untouched (ops : list Op) (rt rt' : Runtime) :
  run PrettyDescriptor ops rt = Ok rt' →
  excluded_untouched rt → excluded_untouched rt'.
Proof.
  revert rt. induction ops as [|op ops IH]; intros rt H Hinv.
  - by simplify_eq/=.
  - simpl in H. unfold_res in H.
    destruct (step PrettyDescriptor op rt) as [rt1|] eqn:Hstep; [|done].
    eapply IH; [exact H|]. by eapply step_excluded_untouched.
Qed.

Lemma run_marked (ops : list Op) (rt rt' : Runtime) (k : nat) :
  run PrettyDescriptor ops rt = Ok rt' →
  marked k rt → marked k rt'.
Proof.
  revert rt. induction ops as [|op ops IH]; intros rt H Hm.
  - by simplify_eq/=.
  - simpl in H. unfold_res in H.
    destruct (step PrettyDescriptor op rt) as [rt1|] eqn:Hstep; [|done].
    eapply IH; [exact H|]. by eapply step_marked.
Qed.

End RunFacts.

(** ** Properties of the lifecycle *)

Section LifecycleClaims.

Variable PrettyDescriptor : string → string.

(** C6: [PostClassPrepare] marks a class traceable if and only if the
    class is no array class, no interface, no primitive class and no proxy
    class and its dex file's location does not begin with
    [/system/framework/]; a class outside this set is left exactly as it
    was, and over any sequence of [Start], [Stop], [Shutdown], dump,
    class-prepare and class-load calls such a class is never marked and
    never gets stubs installed. *)
Theorem PostClassPrepare_marks_exactly_eligible
    (active : bool) (klass : mirror_Class) (ops : list Op) (rt rt' : Runtime) :
  Class_IsMiniTraceable (PostClassPrepare active klass) =
    Class_IsMiniTraceable klass || eligible klass ∧
  (Class_IsMiniTraceable klass = false →
   (Class_IsMiniTraceable (PostClassPrepare active klass) = true ↔ eligible klass = true)) ∧
  (eligible klass = false → PostClassPrepare active klass = klass) ∧
  (excluded_untouched rt →
   run PrettyDescriptor ops rt = Ok rt' →
   excluded_untouched rt').
Proof.
  split_and!.
  - apply PostClassPrepare_flag.
  - intros Hf. rewrite PostClassPrepare_flag, Hf. done.
  - intros He. rewrite PostClassPrepare_eligible. by rewrite He.
  - intros Hinv Hrun. by eapply run_excluded_untouched.
Qed.

(** C7: for a class that [PostClassPrepare] judges eligible the class is
    marked, and stubs are installed by the call exactly when tracing is
    active; with tracing inactive the class is marked and nothing else
    changes. Running [PostClassPrepare] a second time changes nothing, a
    class that is already marked stays marked (and is left as it was when
    tracing is inactive), and no sequence of calls clears a mark. *)
Theorem PostClassPrepare_stubs_iff_active
    (active : bool) (klass : mirror_Class) (ops : list Op) (rt rt' : Runtime) (k : nat) :
  (eligible klass = true →
   Class_IsMiniTraceable (PostClassPrepare active klass) = true ∧
   PostClassPrepare active klass =
     (if active
      then InstallStubsForClass (SetIsMiniTraceable klass)
      else SetIsMiniTraceable klass) ∧
   (stubs_installed klass = false →
    (stubs_installed (PostClassPrepare active klass) = true ↔ active = true))) ∧
  PostClassPrepare active (PostClassPrepare active klass) = PostClassPrepare active klass ∧
  (Class_IsMiniTraceable klass = true →
   Class_IsMiniTraceable (PostClassPrepare active klass) = true ∧
   (active = false → PostClassPrepare active klass = klass)) ∧
  (marked k rt → run PrettyDescriptor ops rt = Ok rt' → marked k rt').
Proof.
  split_and!.
  - intros He. split_and!.
    + rewrite PostClassPrepare_flag, He. apply orb_true_r.
    + rewrite PostClassPrepare_eligible. by rewrite He.
    + intros Hs. rewrite PostClassPrepare_stubs, Hs, He. done.
  - apply PostClassPrepare_idempotent.
  - intros Hf. split.
    + rewrite PostClassPrepare_flag, Hf. done.
    + intros ->. rewrite PostClassPrepare_eligible.
      destruct (eligible klass); [|done].
      destruct klass; simpl in *; by subst.
  - intros Hm Hrun. by eapply run_marked.
Qed.

(** C8: when the trigger file [/data/mini_trace_<uid>_config.in] does
    not exist or cannot be opened, [Start()] returns and has changed
    nothing but the log: no session, no listener, method tracing as it
    was, the class table and every file as they were. *)
Theorem Start_refused_without_trigger_file (rt : Runtime) :
  FileExists (os_state rt) (trace_config_filename (os_state rt)) = false ∨
  ifstream_opens (os_state rt) (trace_config_filename (os_state rt)) = false →
  ∃ rt',
    Start PrettyDescriptor rt = Ok rt' ∧
    same_but_log rt rt' ∧
    IsMiniTraceActive rt' = IsMiniTraceActive rt ∧
    coverage_file_contents rt' = coverage_file_contents rt.
Proof.
  intros Hno.
  assert (Hgoal : ∀ rt', same_but_log rt rt' →
            same_but_log rt rt' ∧ IsMiniTraceActive rt' = IsMiniTraceActive rt ∧
            coverage_file_contents rt' = coverage_file_contents rt).
  { intros rt' Hs. split; [done|]. destruct Hs as (Ht & _ & _ & Hos).
    unfold IsMiniTraceActive, coverage_file_contents. by rewrite Ht, Hos. }
  destruct (the_trace_ rt) as [t|] eqn:Ht.
  { eexists. split; [by apply (Start_active _ rt t)|]. by apply Hgoal. }
  destruct (FileExists (os_state rt) (trace_config_filename (os_state rt))) eqn:Hex.
  - destruct Hno as [?|Hop]; [done|].
    eexists. split; [by apply Start_config_unopenable|]. by apply Hgoal.
  - eexists. split; [by apply Start_no_config|]. by apply Hgoal.
Qed.

(** C9: [Start()] with a session in place logs and changes nothing else,
    and [Stop()] without a session logs and changes nothing else;
    [IsMiniTraceActive()] is the same before and after either call. *)
Theorem Start_Stop_misuse_is_no_op (rt : Runtime) :
  (the_trace_ rt ≠ None →
   ∃ rt',
     Start PrettyDescriptor rt = Ok rt' ∧
     same_but_log rt rt' ∧
     IsMiniTraceActive rt' = true ∧
     log rt' = (log rt ++
                [(INFO, "MiniTrace: Try to start");
                 (ERROR, "Trace already in progress, ignoring this request")])%list) ∧
  (the_trace_ rt = None →
   ∃ rt',
     Stop PrettyDescriptor rt = Ok rt' ∧
     same_but_log rt rt' ∧
     IsMiniTraceActive rt' = false ∧
     log rt' = (log rt ++
                [(ERROR, "Trace stop requested, but no trace currently running")])%list).
Proof.
  split.
  - intros Ht. destruct (the_trace_ rt) as [t|] eqn:Heq; [|done].
    eexists. split; [by apply (Start_active _ rt t)|].
    split_and!; [done| |].
    + unfold IsMiniTraceActive. simpl. by rewrite Heq.
    + simpl. by rewrite <- app_assoc.
  - intros Ht. eexists. split; [by apply Stop_inactive|].
    split_and!; [done| |done].
    unfold IsMiniTraceActive. simpl. by rewrite Ht.
Qed.

(** C1 (amended): a call to [Stop()] made when no session exists performs
    no dump. [DumpCoverageData(false)] returns at its
    [IsMiniTraceActive()] test, so no [Dump] envelope is written and no
    class is walked: the coverage file and every coverage array are as
    before. In particular the second of two consecutive [Stop()] calls
    writes nothing and walks no class. *)
Theorem Stop_without_session_dumps_nothing (rt : Runtime) :
  (the_trace_ rt = None →
   DumpCoverageData_record PrettyDescriptor false rt = Ok rt ∧
   ∃ rt',
     Stop PrettyDescriptor rt = Ok rt' ∧
     same_but_log rt rt' ∧
     dump_envelope_written rt rt' = false) ∧
  (∀ rt1,
     Stop PrettyDescriptor rt = Ok rt1 →
     ∃ rt2,
       Stop PrettyDescriptor rt1 = Ok rt2 ∧
       same_but_log rt1 rt2 ∧
       dump_envelope_written rt1 rt2 = false).
Proof.
  assert (Hstop : ∀ r, the_trace_ r = None →
            ∃ r', Stop PrettyDescriptor r = Ok r' ∧ same_but_log r r' ∧
                  dump_envelope_written r r' = false).
  { intros r Hr. eexists. split; [by apply Stop_inactive|].
    split; [done|]. by apply same_but_log_no_envelope. }
  split.
  - intros Ht. split; [by apply DumpCoverageData_record_inactive|]. by apply Hstop.
  - intros rt1 H1. apply Hstop. by eapply Stop_leaves_inactive.
Qed.

End LifecycleClaims.

(** ** The properties on the sample inputs *)

Lemma DumpCoverageData_drains_witness :
  ∃ os1 m1,
    DumpCoverageData sample_PrettyDescriptor "" (Some (sample_method 4 sample_data))
      = Ok (os1, m1) ∧
    line_emitted "" os1 ∧
    ∃ os2, DumpCoverageData sample_PrettyDescriptor os1 m1 = Ok (os2, m1).
Proof.
  eexists _, _. split; [reflexivity|].
  destruct (DumpCoverageData_drains sample_PrettyDescriptor ""
              (sample_method 4 sample_data) {| InsnsSizeInCodeUnits := 4 |} sample_data
              _ _ eq_refl eq_refl eq_refl ltac:(discriminate) eq_refl)
    as (Hline & _ & _ & Hagain).
  split.
  - apply Hline. exists 1%nat, 7. split; [vm_compute; lia|]. split; [reflexivity|discriminate].
  - apply Hagain. vm_compute. lia.
Defined.

(** C2: the code breaks the property on this input. With two code units
    and the bytes [0,0,1,0,0,0,0,0] the scan of lines 117-125 finds byte 2
    and the line is written, with the run [00], although no byte the emit
    loop reports (and no byte of the first half of them) is nonzero. Byte
    2 is never cleared: the method comes back as it was, so the same line
    is written again at every dump. *)
Lemma DumpCoverageData_line_without_coverage :
  DumpCoverageData sample_PrettyDescriptor "" (Some (sample_method 2 overscan_data)) =
    Ok ("0xff" +:+ tab +:+ "Foo" +:+ tab +:+ "run" +:+ tab +:+ "()V" +:+ tab +:+
        "Foo.java" +:+ tab +:+ "2" +:+ tab +:+ "00" +:+ newline,
        Some (sample_method 2 overscan_data)) ∧
  ¬ (line_emitted ""
       ("0xff" +:+ tab +:+ "Foo" +:+ tab +:+ "run" +:+ tab +:+ "()V" +:+ tab +:+
        "Foo.java" +:+ tab +:+ "2" +:+ tab +:+ "00" +:+ newline)
     ↔ reported_byte_nonzero 2 overscan_data) ∧
  ¬ reported_byte_nonzero 1 overscan_data ∧
  overscan_data !! 2%nat = Some 1.
Proof.
  assert (Hnone : ∀ n, (n ≤ 2)%nat → ¬ reported_byte_nonzero n overscan_data).
  { intros n Hn (i & b & Hi & Hb & Hb0).
    destruct i as [|[|i]]; [| |lia]; vm_compute in Hb; congruence. }
  split_and!.
  - reflexivity.
  - intros [H _]. apply (Hnone 2%nat); [lia|]. apply H. discriminate.
  - apply Hnone. lia.
  - reflexivity.
Qed.

Lemma fast_path_refines_reference_witness :
  ∃ os1 m1,
    DumpCoverageData sample_PrettyDescriptor "" (Some (sample_method 4 sample_data))
      = Ok (os1, m1) ∧
    reference_DumpCoverageData sample_PrettyDescriptor "" (Some (sample_method 4 sample_data))
      = Ok (os1, m1).
Proof.
  eexists _, _. split; [reflexivity|].
  refine (proj2 (fast_path_refines_reference sample_PrettyDescriptor ""
                   (sample_method 4 sample_data) {| InsnsSizeInCodeUnits := 4 |} sample_data
                   _ _ eq_refl eq_refl eq_refl _ eq_refl) _).
  - discriminate.
  - right. exists 1%nat, 7. split; [vm_compute; lia|]. split; [reflexivity|discriminate].
Defined.

(** C3: the code breaks the property on this input. With three code
    units and the bytes [0,0,0,0,9,0,0,0] every byte in the range of the
    emit loop is zero, yet the scan of lines 117-125 finds byte 4, the
    method is not skipped, and the line with the run [000] is written
    where the version without the fast path writes nothing. *)
Lemma fast_path_differs_from_reference :
  (∀ i, (i < 3)%nat → overscan_data_3 !! i = Some 0) ∧
  DumpCoverageData sample_PrettyDescriptor "" (Some (sample_method 3 overscan_data_3)) =
    Ok ("0xff" +:+ tab +:+ "Foo" +:+ tab +:+ "run" +:+ tab +:+ "()V" +:+ tab +:+
        "Foo.java" +:+ tab +:+ "3" +:+ tab +:+ "000" +:+ newline,
        Some (sample_method 3 overscan_data_3)) ∧
  reference_DumpCoverageData sample_PrettyDescriptor "" (Some (sample_method 3 overscan_data_3)) =
    Ok ("", Some (sample_method 3 overscan_data_3)) ∧
  DumpCoverageData sample_PrettyDescriptor "" (Some (sample_method 3 overscan_data_3)) ≠
  reference_DumpCoverageData sample_PrettyDescriptor "" (Some (sample_method 3 overscan_data_3)).
Proof.
  split_and!.
  - intros [|[|[|i]]] Hi; [reflexivity..|lia].
  - reflexivity.
  - reflexivity.
  - vm_compute. discriminate.
Qed.

Lemma emit_loop_in_bounds_witness :
  is_Ok (DumpCoverageData sample_PrettyDescriptor "" (Some (sample_method 2 [1; 0]))) = true.
Proof.
  refine (proj2 (emit_loop_in_bounds sample_PrettyDescriptor ""
                   (sample_method 2 [1; 0]) {| InsnsSizeInCodeUnits := 2 |} [1; 0]
                   eq_refl eq_refl) _ 1 eq_refl _).
  - vm_compute. lia.
  - discriminate.
Defined.

(** C5 as stated fails: with one byte per granule the emit loop leaves the
    array (two code units, one byte), and so does the scan (one code unit,
    one byte that is zero). *)
Lemma dump_leaves_granule_array :
  one_byte_per_granule 2 [1] ∧
  DumpCoverageData sample_PrettyDescriptor "" (Some (sample_method 2 [1])) = OutOfBounds ∧
  one_byte_per_granule 1 [0] ∧
  DumpCoverageData sample_PrettyDescriptor "" (Some (sample_method 1 [0])) = OutOfBounds.
Proof. split_and!; reflexivity. Qed.

Lemma PostClassPrepare_marks_exactly_eligible_witness :
  (Class_IsMiniTraceable (PostClassPrepare true sample_framework_class) = true
   ↔ eligible sample_framework_class = true) ∧
  PostClassPrepare true sample_framework_class = sample_framework_class ∧
  ∃ rt', run sample_PrettyDescriptor [OpStart; OpClassPrepare 1; OpStop; OpStart] sample_idle
         = Ok rt' ∧ excluded_untouched rt'.
Proof.
  destruct (run sample_PrettyDescriptor [OpStart; OpClassPrepare 1; OpStop; OpStart]
              sample_idle) as [rt'|] eqn:Hrun; [|vm_compute in Hrun; discriminate].
  destruct (PostClassPrepare_marks_exactly_eligible sample_PrettyDescriptor true
              sample_framework_class [OpStart; OpClassPrepare 1; OpStop; OpStart]
              sample_idle rt') as (_ & Hiff & Hsame & Hinv).
  split_and!.
  - apply Hiff. reflexivity.
  - apply Hsame. reflexivity.
  - exists rt'. split; [reflexivity|]. apply Hinv; [|exact Hrun].
    repeat constructor; discriminate.
Defined.

Lemma PostClassPrepare_stubs_iff_active_witness :
  Class_IsMiniTraceable (PostClassPrepare false sample_app_class) = true ∧
  stubs_installed (PostClassPrepare false sample_app_class) = false ∧
  stubs_installed (PostClassPrepare true sample_app_class) = true ∧
  ∃ rt', run sample_PrettyDescriptor [OpStop; OpClassPrepare 0; OpStart] sample_tracing
         = Ok rt' ∧ marked 0 rt'.
Proof.
  destruct (run sample_PrettyDescriptor [OpStop; OpClassPrepare 0; OpStart]
              sample_tracing) as [rt'|] eqn:Hrun; [|vm_compute in Hrun; discriminate].
  destruct (PostClassPrepare_stubs_iff_active sample_PrettyDescriptor false
              sample_app_class [OpStop; OpClassPrepare 0; OpStart]
              sample_tracing rt' 0) as (Hoff & _ & _ & Hmarked).
  destruct (PostClassPrepare_stubs_iff_active sample_PrettyDescriptor true
              sample_app_class [OpStop; OpClassPrepare 0; OpStart]
              sample_tracing rt' 0) as (Hon & _).
  destruct Hoff as (Hflag & Hoff & _); [reflexivity|].
  destruct Hon as (_ & _ & Hon); [reflexivity|].
  split_and!.
  - exact Hflag.
  - rewrite Hoff. reflexivity.
  - apply Hon; reflexivity.
  - exists rt'. split; [reflexivity|]. apply Hmarked; [|exact Hrun].
    eexists. split; reflexivity.
Defined.

(** [Start] on [sample_idle] opens the session of [sample_tracing], and
    [DumpCoverageData(false)] called while that session runs writes the
    [Dump] envelope and the line of the one executed method. *)
Example Start_then_dump :
  (∃ rt', Start sample_PrettyDescriptor sample_idle = Ok rt' ∧
          the_trace_ rt' = the_trace_ sample_tracing ∧
          instrumentation rt' = instrumentation sample_tracing ∧
          classes rt' = classes sample_tracing ∧
          os_state rt' = os_state sample_tracing) ∧
  (∃ rt', DumpCoverageData_record sample_PrettyDescriptor false sample_tracing = Ok rt' ∧
          dump_envelope_written sample_tracing rt' = true ∧
          coverage_file_contents rt' =
            envelope "Start" (os_state sample_tracing) +:+
            envelope "Dump" (os_state sample_tracing) +:+
            "0xff" +:+ tab +:+ "Foo" +:+ tab +:+ "run" +:+ tab +:+ "()V" +:+ tab +:+
            "Foo.java" +:+ tab +:+ "4" +:+ tab +:+ "0100" +:+ newline).
Proof.
  split.
  - eexists. split; [reflexivity|]. vm_compute. by split_and!.
  - eexists. split; [reflexivity|]. vm_compute. by split_and!.
Qed.

Lemma Start_refused_without_trigger_file_witness :
  ∃ rt',
    Start sample_PrettyDescriptor sample_untriggered = Ok rt' ∧
    same_but_log sample_untriggered rt' ∧
    IsMiniTraceActive rt' = IsMiniTraceActive sample_untriggered ∧
    coverage_file_contents rt' = coverage_file_contents sample_untriggered.
Proof.
  apply Start_refused_without_trigger_file. left. vm_compute. reflexivity.
Defined.

Lemma Start_Stop_misuse_is_no_op_witness :
  (∃ rt', Start sample_PrettyDescriptor sample_tracing = Ok rt' ∧
          same_but_log sample_tracing rt') ∧
  (∃ rt', Stop sample_PrettyDescriptor sample_idle = Ok rt' ∧
          same_but_log sample_idle rt').
Proof.
  split.
  - destruct (proj1 (Start_Stop_misuse_is_no_op sample_PrettyDescriptor sample_tracing))
      as (rt' & H1 & H2 & _); [discriminate|]. by exists rt'.
  - destruct (proj2 (Start_Stop_misuse_is_no_op sample_PrettyDescriptor sample_idle))
      as (rt' & H1 & H2 & _); [reflexivity|]. by exists rt'.
Defined.

Lemma Stop_without_session_dumps_nothing_witness :
  ∃ rt',
    Stop sample_PrettyDescriptor sample_idle = Ok rt' ∧
    same_but_log sample_idle rt' ∧
    dump_envelope_written sample_idle rt' = false.
Proof.
  apply (proj1 (Stop_without_session_dumps_nothing sample_PrettyDescriptor sample_idle)).
  reflexivity.
Defined.

(** C1 as stated fails: [Stop()] with a session running and one nonzero
    coverage byte writes no [Dump] envelope and walks no class, and a
    second [Stop()] writes none either; the coverage file still holds the
    [Start] record alone and the byte is still set. *)
Lemma Stop_twice_writes_no_Dump_envelope :
  ∃ rt1 rt2,
    Stop sample_PrettyDescriptor sample_tracing = Ok rt1 ∧
    Stop sample_PrettyDescriptor rt1 = Ok rt2 ∧
    dump_envelope_written sample_tracing rt1 = false ∧
    dump_envelope_written rt1 rt2 = false ∧
    coverage_file_contents rt2 = envelope "Start" (os_state sample_tracing) ∧
    classes rt2 = classes sample_tracing.
Proof.
  eexists _, _. split; [reflexivity|]. split; [reflexivity|].
  split_and!; reflexivity.
Qed.

(** ** The class walk *)

Lemma visit_all_grows {A : Type}
    (visitor : string → A → res (string * A)) (s : string) (l : list A)
    (s' : string) (l' : list A) :
  (∀ s a s' a', visitor s a = Ok (s', a') → ∃ x, s' = s +:+ x) →
  visit_all visitor s l = Ok (s', l') →
  ∃ x, s' = s +:+ x.
Proof.
  intros Hv. revert s s' l'. induction l as [|a l IH]; intros s s' l' H.
  - simpl in H. simplify_eq. exists "". by rewrite append_nil_r.
  - simpl in H. unfold_res in H.
    destruct (visitor s a) as [[s1 a1]|] eqn:Ha; [|done].
    destruct (visit_all visitor s1 l) as [[s2 l2]|] eqn:Hl; [|done].
    simplify_eq. destruct (Hv _ _ _ _ Ha) as [x ->].
    destruct (IH _ _ _ Hl) as [y ->]. exists (x +:+ y). by rewrite append_assoc.
Qed.

Lemma visit_all_fixed {S A : Type} (P : A → Prop)
    (visitor : S → A → res (S * A)) (s : S) (l : list A) (s' : S) (l' : list A) :
  (∀ s a s' a', P a → visitor s a = Ok (s', a') → a' = a) →
  Forall P l →
  visit_all visitor s l = Ok (s', l') →
  l' = l.
Proof.
  intros Hv HP. revert s s' l'. induction HP as [|a l Ha Hl IH]; intros s s' l' H.
  - simpl in H. by simplify_eq.
  - simpl in H. unfold_res in H.
    destruct (visitor s a) as [[s1 a1]|] eqn:Hva; [|done].
    destruct (visit_all visitor s1 l) as [[s2 l2]|] eqn:Hvl; [|done].
    simplify_eq. f_equal; eauto.
Qed.

(** A walk whose visitor leaves stream and element alone does nothing. *)
Lemma visit_all_skip {S A : Type} (P : A → Prop)
    (visitor : S → A → res (S * A)) (s : S) (l : list A) :
  (∀ s a, P a → visitor s a = Ok (s, a)) →
  Forall P l →
  visit_all visitor s l = Ok (s, l).
Proof.
  intros Hv HP. induction HP as [|a l Ha Hl IH]; [done|].
  simpl. rewrite (Hv s a Ha). unfold_res. by rewrite IH.
Qed.

Lemma only_cleared_refl (data : list N) : only_cleared data data.
Proof. split; [done|]. intros i b Hb. by right. Qed.

Section WalkFacts.

Variable PrettyDescriptor : string → string.

(** A method that does not get past the early returns. *)
Lemma DumpCoverageData_not_dumped (os : string) (m : ArtMethod) :
  (∀ ci data,
     Method_IsMiniTraceable m = true → GetCodeItem m = Some ci →
     GetCoverageData m = Some data → insns_size_of ci = 0) →
  DumpCoverageData PrettyDescriptor os (Some m) = Ok (os, Some m).
Proof.
  intros H. unfold DumpCoverageData.
  destruct (Method_IsMiniTraceable m); [|done]. simpl.
  destruct (GetCodeItem m) as [ci|]; [|done].
  destruct (GetCoverageData m) as [data|]; [|done].
  by rewrite (H ci data).
Qed.

(** Does the method get past the early returns? *)
Lemma method_dumped_or_not (m : ArtMethod) :
  (∃ ci data,
     Method_IsMiniTraceable m = true ∧ GetCodeItem m = Some ci ∧
     GetCoverageData m = Some data ∧ insns_size_of ci ≠ 0) ∨
  (∀ ci data,
     Method_IsMiniTraceable m = true → GetCodeItem m = Some ci →
     GetCoverageData m = Some data → insns_size_of ci = 0).
Proof.
  destruct (Method_IsMiniTraceable m); [|by right].
  destruct (GetCodeItem m) as [ci|]; [|by right].
  destruct (GetCoverageData m) as [data|]; [|by right].
  destruct (N.eq_dec (insns_size_of ci) 0) as [Hz|Hn].
  - right. by intros ? ? _ [= <-] _.
  - left. by exists ci, data.
Qed.

Lemma DumpCoverageData_method_result
    (os : string) (m : ArtMethod) (os' : string) (mo' : option ArtMethod) :
  DumpCoverageData PrettyDescriptor os (Some m) = Ok (os', mo') →
  ∃ m' suffix,
    mo' = Some m' ∧ os' = os +:+ suffix ∧
    method_only_cleared m m' ∧ method_drained m'.
Proof.
  intros Hrun.
  destruct (method_dumped_or_not m) as [(ci & data & Ht & Hc & Hd & Hn)|Hnot].
  - pose proof (insns_size_lt_scanned_bytes (insns_size_of ci)) as Hlt.
    destruct (DumpCoverageData_Ok_inv PrettyDescriptor os m ci data os' mo')
      as [(Hv & -> & ->)|(Hv & Hlen & -> & ->)]; try done.
    + exists m, "". rewrite append_nil_r. split_and!; [done|done|by left|].
      intros ci' data' _ Hc' Hd' _ i Hi. simplify_eq.
      rewrite visited_check_false in Hv. apply Hv. lia.
    + eexists _, _. split_and!; [done|done| |].
      * right. exists data, (cleared 0 (N.to_nat (insns_size_of ci)) data).
        split_and!; [done|done|]. split; [by apply cleared_length|].
        intros i b Hb.
        destruct (decide (i < N.to_nat (insns_size_of ci))%nat) as [Hi|Hi].
        -- rewrite cleared_lookup_in in Hb by done. left. congruence.
        -- rewrite cleared_lookup_out in Hb by lia. by right.
      * intros ci' data' _ Hc' Hd' _ i Hi. simpl in Hc', Hd'. simplify_eq.
        by apply cleared_lookup_in.
  - rewrite (DumpCoverageData_not_dumped os m Hnot) in Hrun. simplify_eq.
    exists m, "". rewrite append_nil_r. split_and!; [done|done|by left|].
    intros ci data Ht Hc Hd Hn. by specialize (Hnot ci data Ht Hc Hd).
Qed.

Lemma DumpCoverageData_drained_fixed
    (os : string) (m : ArtMethod) (os' : string) (mo' : option ArtMethod) :
  method_drained m →
  DumpCoverageData PrettyDescriptor os (Some m) = Ok (os', mo') →
  mo' = Some m.
Proof.
  intros Hdr Hrun.
  destruct (method_dumped_or_not m) as [(ci & data & Ht & Hc & Hd & Hn)|Hnot].
  - destruct (DumpCoverageData_Ok_inv PrettyDescriptor os m ci data os' mo')
      as [(_ & _ & ->)|(_ & _ & _ & ->)]; try done.
    rewrite cleared_all_zero by (by apply (Hdr ci data)).
    by rewrite with_coverage_same.
  - rewrite (DumpCoverageData_not_dumped os m Hnot) in Hrun. by simplify_eq.
Qed.

Lemma DumpCoverageDataClassVisitor_result
    (os : string) (c : mirror_Class) (os' : string) (c' : mirror_Class) :
  DumpCoverageDataClassVisitor PrettyDescriptor os c = Ok (os', c') →
  class_only_cleared c c' ∧ class_drained c' ∧ ∃ suffix, os' = os +:+ suffix.
Proof.
  unfold DumpCoverageDataClassVisitor.
  destruct (Class_IsMiniTraceable c) eqn:Hflag; cbn [negb].
  - unfold_res.
    destruct (visit_all _ os (GetDeclaredMethods c)) as [[os1 ms]|] eqn:Hv; [|done].
    intros [= <- <-].
    assert (Hms : Forall2 (fun m m' => method_only_cleared m m' ∧ method_drained m')
                    (GetDeclaredMethods c) ms).
    { eapply visit_all_Forall2; [|exact Hv]. cbv beta.
      intros s a s' a' Ha. unfold_res in Ha.
      destruct (DumpCoverageData PrettyDescriptor s (Some a)) as [[s1 mo]|] eqn:Hd; [|done].
      simplify_eq.
      apply DumpCoverageData_method_result in Hd as (m' & x & Hm & _ & ? & ?).
      subst mo. simpl. by split. }
    split_and!.
    + split; [|congruence]. exists ms. split; [done|].
      eapply Forall2_impl; [exact Hms|]. by intros ? ? [? ?].
    + intros _. simpl. eapply Forall2_Forall_r; [exact Hms|].
      apply Forall_forall. by intros ? _ ? [? ?].
    + eapply visit_all_grows; [|exact Hv]. cbv beta.
      intros s a s' a' Ha. unfold_res in Ha.
      destruct (DumpCoverageData PrettyDescriptor s (Some a)) as [[s1 mo]|] eqn:Hd; [|done].
      simplify_eq.
      apply DumpCoverageData_method_result in Hd as (m' & x & _ & Hx & _). by exists x.
  - intros [= <- <-]. split_and!.
    + split; [|done]. exists (GetDeclaredMethods c).
      rewrite with_methods_same. split; [done|].
      apply Forall_Forall2_diag, Forall_forall. intros m _. by left.
    + intros Hc. congruence.
    + exists "". by rewrite append_nil_r.
Qed.

Lemma DumpCoverageDataClassVisitor_drained_fixed
    (os : string) (c : mirror_Class) (os' : string) (c' : mirror_Class) :
  class_drained c →
  DumpCoverageDataClassVisitor PrettyDescriptor os c = Ok (os', c') →
  c' = c.
Proof.
  unfold DumpCoverageDataClassVisitor. intros Hdr.
  destruct (Class_IsMiniTraceable c) eqn:Hflag; cbn [negb]; [|by intros [= <- <-]].
  unfold_res.
  destruct (visit_all _ os (GetDeclaredMethods c)) as [[os1 ms]|] eqn:Hv; [|done].
  intros [= <- <-].
  apply (visit_all_fixed method_drained) in Hv; [|cbv beta|by apply Hdr].
  - rewrite Hv. apply with_methods_same.
  - intros s a s' a' Ha Hrun. unfold_res in Hrun.
    destruct (DumpCoverageData PrettyDescriptor s (Some a)) as [[s1 mo]|] eqn:Hd; [|done].
    simplify_eq. by rewrite (DumpCoverageData_drained_fixed _ _ _ _ Ha Hd).
Qed.

(** The walk of a dump: bytes are cleared and nothing else changes, the
    classes come out drained, and the stream grows. *)
Lemma walk_result (os : string) (cs : list mirror_Class)
    (os' : string) (cs' : list mirror_Class) :
  visit_all (DumpCoverageDataClassVisitor PrettyDescriptor) os cs = Ok (os', cs') →
  Forall2 class_only_cleared cs cs' ∧ Forall class_drained cs' ∧
  ∃ body, os' = os +:+ body.
Proof.
  intros Hv.
  assert (H2 : Forall2 (fun c c' => class_only_cleared c c' ∧ class_drained c') cs cs').
  { eapply visit_all_Forall2; [|exact Hv].
    intros s a s' a' Ha. by apply DumpCoverageDataClassVisitor_result in Ha as (? & ? & _). }
  split_and!.
  - eapply Forall2_impl; [exact H2|]. by intros ? ? [? ?].
  - eapply Forall2_Forall_r; [exact H2|]. apply Forall_forall. by intros ? _ ? [? ?].
  - eapply visit_all_grows; [|exact Hv].
    intros s a s' a' Ha. by apply DumpCoverageDataClassVisitor_result in Ha as (_ & _ & ?).
Qed.

Lemma walk_drained_fixed (os : string) (cs : list mirror_Class)
    (os' : string) (cs' : list mirror_Class) :
  Forall class_drained cs →
  visit_all (DumpCoverageDataClassVisitor PrettyDescriptor) os cs = Ok (os', cs') →
  cs' = cs.
Proof.
  intros Hdr Hv. eapply (visit_all_fixed class_drained); [|exact Hdr|exact Hv].
  intros s a s' a' Ha Hrun. by eapply DumpCoverageDataClassVisitor_drained_fixed.
Qed.

End WalkFacts.

(** ** Records in the coverage file *)

Lemma open_or_create_Some (os : OS) (name : string) (f : File) :
  open_or_create os name = Some f →
  openable f = true ∧
  contents f = match files os !! name with Some g => contents g | None => "" end.
Proof.
  unfold open_or_create. destruct (files os !! name) as [g|].
  - destruct (openable g) eqn:Hg; [|done]. by intros [= <-].
  - destruct (create_ok os); [|done]. by intros [= <-].
Qed.

(** Once the file was opened, opening it again succeeds. *)
Lemma open_or_create_again (os : OS) (name : string) (f : File) (text : string) :
  open_or_create os name = Some f →
  open_or_create (with_files os (<[name := file_after_record os f text]> (files os))) name
    = Some (file_after_record os f text).
Proof.
  intros [Hop _]%open_or_create_Some. unfold open_or_create. simpl.
  rewrite lookup_insert_eq. simpl. by rewrite Hop.
Qed.

Section RecordFacts.

Variable PrettyDescriptor : string → string.

Lemma record_open_fails (start : bool) (rt : Runtime) :
  IsMiniTraceActive rt = true →
  open_or_create (os_state rt) (coverage_data_filename (os_state rt)) = None →
  DumpCoverageData_record PrettyDescriptor start rt =
    Ok (LOG INFO ("Failed to open coverage data file "
                  +:+ coverage_data_filename (os_state rt)) rt).
Proof. intros Ha Ho. unfold DumpCoverageData_record. by rewrite Ha, Ho. Qed.

(** With a session and the file open, the call fails exactly when the walk
    does, and otherwise leaves the class table of the walk and the file
    [file_after_record]. *)
Lemma record_active_file (start : bool) (rt : Runtime) (f : File) :
  IsMiniTraceActive rt = true →
  open_or_create (os_state rt) (coverage_data_filename (os_state rt)) = Some f →
  match record_text PrettyDescriptor start rt with
  | OutOfBounds => DumpCoverageData_record PrettyDescriptor start rt = OutOfBounds
  | Ok (text, cs) =>
      ∃ rt',
        DumpCoverageData_record PrettyDescriptor start rt = Ok rt' ∧
        the_trace_ rt' = the_trace_ rt ∧
        instrumentation rt' = instrumentation rt ∧
        classes rt' = cs ∧
        os_state rt' =
          with_files (os_state rt)
            (<[coverage_data_filename (os_state rt) :=
                 file_after_record (os_state rt) f text]> (files (os_state rt)))
  end.
Proof.
  intros Ha Ho. unfold DumpCoverageData_record, record_text, file_after_record.
  rewrite Ha, Ho. cbn [negb].
  destruct start.
  - cbn. destruct (write_ok (os_state rt)), (flush_ok (os_state rt)); cbn;
      eexists; (split; [reflexivity|]); cbn; split_and!; try done;
      unfold with_files; cbn; by rewrite !insert_insert_eq.
  - cbn. unfold_res.
    destruct (visit_all _ _ (classes rt)) as [[text cs]|]; [|done].
    cbn. destruct (write_ok (os_state rt)), (flush_ok (os_state rt)); cbn;
      eexists; (split; [reflexivity|]); cbn; split_and!; try done;
      unfold with_files; cbn; by rewrite !insert_insert_eq.
Qed.

(** A [Start] record is always written or given up without a fault, and
    leaves session, instrumentation and class table alone. *)
Lemma record_Start_frame (rt : Runtime) :
  ∃ rt',
    DumpCoverageData_record PrettyDescriptor true rt = Ok rt' ∧
    the_trace_ rt' = the_trace_ rt ∧
    instrumentation rt' = instrumentation rt ∧
    classes rt' = classes rt.
Proof.
  destruct (IsMiniTraceActive rt) eqn:Ha.
  - destruct (open_or_create (os_state rt) (coverage_data_filename (os_state rt)))
      as [f|] eqn:Ho.
    + destruct (record_active_file true rt f Ha Ho) as (rt' & ? & ? & ? & ? & _).
      by exists rt'.
    + eexists. split; [by apply record_open_fails|]. done.
  - exists rt. split; [|done].
    unfold DumpCoverageData_record. by rewrite Ha.
Qed.

Lemma coverage_file_contents_after (rt rt' : Runtime) (f : File) (text : string) :
  os_state rt' =
    with_files (os_state rt)
      (<[coverage_data_filename (os_state rt) :=
           file_after_record (os_state rt) f text]> (files (os_state rt))) →
  coverage_file_contents rt' = contents (file_after_record (os_state rt) f text) ∧
  ∀ p, p ≠ coverage_data_filename (os_state rt) →
       files (os_state rt') !! p = files (os_state rt) !! p.
Proof.
  intros Hos. unfold coverage_file_contents. rewrite Hos. cbn. split.
  - unfold coverage_data_filename at 1. cbn.
    fold (coverage_data_filename (os_state rt)). by rewrite lookup_insert_eq.
  - intros p Hp. by rewrite lookup_insert_ne.
Qed.

Lemma open_or_create_coverage_contents (rt : Runtime) (f : File) :
  open_or_create (os_state rt) (coverage_data_filename (os_state rt)) = Some f →
  contents f = coverage_file_contents rt.
Proof. intros [_ H]%open_or_create_Some. done. Qed.

(** [Start] with no session and a trigger file that opens reaches the
    critical section. *)
Lemma Start_success (rt : Runtime) :
  the_trace_ rt = None →
  ifstream_opens (os_state rt) (trace_config_filename (os_state rt)) = true →
  Start PrettyDescriptor rt =
    DumpCoverageData_record PrettyDescriptor true
      (set_classes (PostClassPrepare true <$> classes rt)
         (set_instrumentation
            (EnableMethodTracing (AddListener MiniTrace_object (instrumentation rt)))
            (set_the_trace (Some MiniTrace_object)
               (LOG INFO "MiniTrace: Try to start" rt)))).
Proof.
  intros Ht Hop. unfold Start, IsMiniTraceActive. cbn. rewrite Ht. cbn.
  assert (FileExists (os_state rt) (trace_config_filename (os_state rt)) = true) as ->.
  { unfold ifstream_opens in Hop. unfold FileExists.
    destruct (files (os_state rt) !! _) eqn:E; [|done]. by apply bool_decide_eq_true. }
  rewrite Hop. done.
Qed.

Lemma PostClassPrepare_methods (active : bool) (c : mirror_Class) :
  GetDeclaredMethods (PostClassPrepare active c) = GetDeclaredMethods c.
Proof.
  rewrite PostClassPrepare_eligible. destruct (eligible c); [|done]. by destruct active.
Qed.

End RecordFacts.

(** ** What one call does to session and class table *)

Lemma class_step_refl (c : mirror_Class) : class_step c c.
Proof. exists (GetDeclaredMethods c). left. by rewrite with_methods_same. Qed.

Lemma class_step_PostClassPrepare (active : bool) (c : mirror_Class) :
  class_step c (PostClassPrepare active c).
Proof.
  exists (GetDeclaredMethods (PostClassPrepare active c)). right. exists active.
  by rewrite with_methods_same.
Qed.

Lemma Forall2_class_step_refl (l : list mirror_Class) : Forall2 class_step l l.
Proof. apply Forall_Forall2_diag, Forall_forall. intros c _. apply class_step_refl. Qed.

Lemma append_String (a : ascii) (s t : string) : String a s +:+ t = String a (s +:+ t).
Proof. done. Qed.

Lemma append_empty_l (t : string) : "" +:+ t = t.
Proof. done. Qed.

(** Text that ends in different characters is different text. *)
Lemma append_last_neq (s s' : string) (c1 c2 : ascii) :
  c1 ≠ c2 → s +:+ String c1 "" ≠ s' +:+ String c2 "".
Proof.
  intros Hc. revert s'. induction s as [|a s IH]; intros [|b s'] H;
    rewrite ?append_String, ?append_empty_l in H.
  - congruence.
  - injection H as _ H. destruct s'; rewrite ?append_String, ?append_empty_l in H; done.
  - injection H as _ H. destruct s; rewrite ?append_String, ?append_empty_l in H; done.
  - injection H as _ H. by apply IH in H.
Qed.

Lemma append_cancel_r (s1 s2 t : string) : s1 +:+ t = s2 +:+ t → s1 = s2.
Proof.
  revert s2. induction s1 as [|a s1 IH]; intros [|b s2] H;
    rewrite ?append_String, ?append_empty_l in H.
  - done.
  - apply (f_equal String.length) in H. cbn in H. rewrite length_append in H. lia.
  - apply (f_equal String.length) in H. cbn in H. rewrite length_append in H. lia.
  - injection H as -> H. f_equal. by apply IH.
Qed.

Section StepFacts.

Variable PrettyDescriptor : string → string.

(** [Start] always returns: it changes the log only, or it opens the
    session and prepares every class. *)
Lemma Start_cases (rt : Runtime) :
  ∃ rt',
    Start PrettyDescriptor rt = Ok rt' ∧
    (same_but_log rt rt' ∨
     the_trace_ rt = None ∧
     the_trace_ rt' = Some MiniTrace_object ∧
     instrumentation rt' =
       EnableMethodTracing (AddListener MiniTrace_object (instrumentation rt)) ∧
     classes rt' = PostClassPrepare true <$> classes rt).
Proof.
  destruct (the_trace_ rt) as [t|] eqn:Ht.
  { eexists. split; [by apply (Start_active _ rt t)|]. by left. }
  destruct (FileExists (os_state rt) (trace_config_filename (os_state rt))) eqn:Hex;
    [|eexists; split; [by apply Start_no_config|by left]].
  destruct (ifstream_opens (os_state rt) (trace_config_filename (os_state rt))) eqn:Hop;
    [|eexists; split; [by apply Start_config_unopenable|by left]].
  rewrite (Start_success _ rt Ht Hop).
  match goal with
  | |- context [DumpCoverageData_record _ true ?r] =>
      destruct (record_Start_frame PrettyDescriptor r) as (rt' & Hrun & H1 & H2 & H3)
  end.
  exists rt'. split; [done|]. right. by rewrite H1, H2, H3.
Qed.

Lemma Stop_total (rt : Runtime) :
  ∃ rt',
    Stop PrettyDescriptor rt = Ok rt' ∧
    the_trace_ rt' = None ∧
    classes rt' = classes rt ∧
    os_state rt' = os_state rt ∧
    instrumentation rt' =
      match the_trace_ rt with
      | Some t => RemoveListener t (DisableMethodTracing (instrumentation rt))
      | None => instrumentation rt
      end.
Proof.
  destruct (the_trace_ rt) as [t|] eqn:Ht.
  - eexists. split; [by apply Stop_active|]. done.
  - eexists. split; [by apply Stop_inactive|]. done.
Qed.

Lemma step_class_steps (op : Op) (rt rt' : Runtime) :
  step PrettyDescriptor op rt = Ok rt' →
  ∃ l1 l2,
    classes rt' = (l1 ++ l2)%list ∧
    Forall2 class_step (classes rt) l1 ∧
    Forall (fun c => ∃ active klass, c = PostClassPrepare active (new_class klass)) l2.
Proof.
  assert (Hsame : ∀ l : list mirror_Class,
            Forall2 class_step (classes rt) l →
            ∃ l1 l2, l = (l1 ++ l2)%list ∧ Forall2 class_step (classes rt) l1 ∧
                     Forall (fun c => ∃ active klass,
                                        c = PostClassPrepare active (new_class klass)) l2).
  { intros l Hl. exists l, []. by rewrite app_nil_r. }
  destruct op as [| | | |k|klass|os]; cbn; intros H.
  - apply Hsame. destruct (Start_cases rt) as (rt1 & Hrun & Hcase).
    rewrite Hrun in H. simplify_eq.
    destruct Hcase as [(_ & _ & -> & _)|(_ & _ & _ & ->)].
    + apply Forall2_class_step_refl.
    + apply Forall2_fmap_r, Forall_Forall2_diag, Forall_forall.
      intros c _. apply class_step_PostClassPrepare.
  - apply Hsame. apply Stop_classes in H. rewrite H. apply Forall2_class_step_refl.
  - apply Hsame. unfold Shutdown in H. destruct (IsMiniTraceActive rt).
    + apply Stop_classes in H. rewrite H. apply Forall2_class_step_refl.
    + simplify_eq. apply Forall2_class_step_refl.
  - apply Hsame. apply DumpCoverageData_record_classes in H as [H _].
    eapply Forall2_impl; [exact H|]. intros c c' [ms ->]. exists ms. by left.
  - apply Hsame. simplify_eq. cbn.
    apply Forall2_alter_r; [apply Forall2_class_step_refl|].
    intros x y Hx Hy _.
    assert (x = y) as -> by congruence. apply class_step_PostClassPrepare.
  - simplify_eq. cbn.
    exists (classes rt), [PostClassPrepare (IsMiniTraceActive rt) (new_class klass)].
    split_and!.
    + rewrite length_app. cbn.
      replace (length (classes rt) + 1 - 1)%nat with (length (classes rt) + 0)%nat by lia.
      by rewrite alter_app_r.
    + apply Forall2_class_step_refl.
    + constructor; [by eexists _, _|constructor].
  - apply Hsame. simplify_eq. apply Forall2_class_step_refl.
Qed.

(** A property of classes that coverage clearing and [PostClassPrepare]
    keep, and that fresh classes have, holds throughout a run. *)
Lemma run_class_property (P : mirror_Class → Prop) (ops : list Op) (rt rt' : Runtime) :
  (∀ c ms, P c → P (with_methods c ms)) →
  (∀ active c, P c → P (PostClassPrepare active c)) →
  (∀ klass, P (new_class klass)) →
  Forall P (classes rt) →
  run PrettyDescriptor ops rt = Ok rt' →
  Forall P (classes rt').
Proof.
  intros Hms Hpcp Hnew. revert rt. induction ops as [|op ops IH]; intros rt HP H.
  - by simplify_eq/=.
  - cbn in H. unfold_res in H.
    destruct (step PrettyDescriptor op rt) as [rt1|] eqn:Hstep; [|done].
    apply (IH rt1); [|done].
    apply step_class_steps in Hstep as (l1 & l2 & -> & Hl1 & Hl2).
    apply Forall_app. split.
    + eapply Forall2_Forall_r; [exact Hl1|].
      eapply Forall_impl; [exact HP|]. cbv beta.
      intros c Hc c' [ms [->|[a ->]]]; auto.
    + eapply Forall_impl; [exact Hl2|]. cbv beta.
      intros c (a & k & ->). auto.
Qed.

Lemma step_session_consistent (op : Op) (rt rt' : Runtime) :
  step PrettyDescriptor op rt = Ok rt' →
  session_consistent rt → session_consistent rt'.
Proof.
  unfold session_consistent, IsMiniTraceActive.
  destruct op as [| | | |k|klass|os]; cbn; intros H Hinv.
  - destruct (Start_cases rt) as (rt1 & Hrun & Hcase).
    rewrite Hrun in H. simplify_eq.
    destruct Hcase as [(-> & -> & _)|(Ht & -> & -> & _)]; [done|].
    rewrite Ht in Hinv. by rewrite Hinv.
  - destruct (Stop_total rt) as (rt1 & Hrun & Ht1 & _ & _ & Hi1).
    rewrite Hrun in H. simplify_eq. rewrite Ht1, Hi1.
    destruct (the_trace_ rt); by rewrite Hinv.
  - unfold Shutdown, IsMiniTraceActive in H.
    destruct (the_trace_ rt) as [t|] eqn:Ht.
    + destruct (Stop_total rt) as (rt1 & Hrun & Ht1 & _ & _ & Hi1).
      rewrite Hrun in H. simplify_eq. rewrite Ht1, Hi1, Ht. by rewrite Hinv.
    + simplify_eq. by rewrite Ht.
  - apply DumpCoverageData_record_classes in H as (_ & -> & ->). done.
  - by simplify_eq.
  - by simplify_eq.
  - by simplify_eq.
Qed.

End StepFacts.

(** ** Further properties: the start of a session *)

Section SessionStart.

Variable PrettyDescriptor : string → string.

(** X1: with no session and a trigger file that opens, [Start()] opens the
    session whatever happens to the coverage file: [the_trace_] is set, the
    listener is added, method tracing is on, and every class already
    loaded went through [PostClassPrepare] with tracing active, so every
    eligible one is marked and has its stubs. *)
Theorem Start_opens_session (rt : Runtime) :
  the_trace_ rt = None →
  ifstream_opens (os_state rt) (trace_config_filename (os_state rt)) = true →
  ∃ rt',
    Start PrettyDescriptor rt = Ok rt' ∧
    the_trace_ rt' = Some MiniTrace_object ∧
    listeners (instrumentation rt') = MiniTrace_object :: listeners (instrumentation rt) ∧
    method_tracing (instrumentation rt') = true ∧
    classes rt' = PostClassPrepare true <$> classes rt ∧
    Forall (fun c => eligible c = true →
                     Class_IsMiniTraceable c = true ∧ stubs_installed c = true)
           (classes rt').
Proof.
  intros Ht Hop. rewrite (Start_success _ rt Ht Hop).
  match goal with
  | |- context [DumpCoverageData_record _ true ?r] =>
      destruct (record_Start_frame PrettyDescriptor r) as (rt' & Hrun & H1 & H2 & H3)
  end.
  exists rt'. rewrite H1, H2, H3. split_and!; try done.
  cbn. apply Forall_fmap, Forall_forall. intros c _. cbn.
  rewrite PostClassPrepare_eligible_eq, PostClassPrepare_flag, PostClassPrepare_stubs.
  intros ->. by rewrite !orb_true_r.
Qed.

(** X2: when, besides, the coverage file opens (or is created) and the
    write and the flush succeed, [Start()] puts exactly the line
    [Start\t<pid>\t<millis>\n] behind what the coverage file held, and
    touches no other file. *)
Theorem Start_appends_Start_record (rt : Runtime) (f : File) :
  the_trace_ rt = None →
  ifstream_opens (os_state rt) (trace_config_filename (os_state rt)) = true →
  open_or_create (os_state rt) (coverage_data_filename (os_state rt)) = Some f →
  write_ok (os_state rt) = true →
  flush_ok (os_state rt) = true →
  ∃ rt',
    Start PrettyDescriptor rt = Ok rt' ∧
    coverage_file_contents rt' =
      coverage_file_contents rt +:+ envelope "Start" (os_state rt) ∧
    ∀ p, p ≠ coverage_data_filename (os_state rt) →
         files (os_state rt') !! p = files (os_state rt) !! p.
Proof.
  intros Ht Hop Hf Hw Hfl. rewrite (Start_success _ rt Ht Hop).
  match goal with
  | |- context [DumpCoverageData_record _ true ?r] =>
      destruct (record_active_file PrettyDescriptor true r f eq_refl Hf)
        as (rt' & Hrun & _ & _ & _ & Hos)
  end.
  exists rt'. split; [done|].
  apply coverage_file_contents_after in Hos as [Hc Hp]. cbn in Hc, Hp.
  split; [|done]. rewrite Hc. unfold file_after_record. cbn. rewrite Hw, Hfl. cbn.
  by rewrite (open_or_create_coverage_contents rt f Hf).
Qed.

(** X3: when the coverage file can be neither opened nor created,
    [Start()] still opens the session; it logs the failure and leaves
    every file as it was. *)
Theorem Start_without_coverage_file (rt : Runtime) :
  the_trace_ rt = None →
  ifstream_opens (os_state rt) (trace_config_filename (os_state rt)) = true →
  open_or_create (os_state rt) (coverage_data_filename (os_state rt)) = None →
  ∃ rt',
    Start PrettyDescriptor rt = Ok rt' ∧
    IsMiniTraceActive rt' = true ∧
    os_state rt' = os_state rt ∧
    log rt' =
      (log rt ++
       [(INFO, "MiniTrace: Try to start");
        (INFO, "Failed to open coverage data file "
               +:+ coverage_data_filename (os_state rt))])%list.
Proof.
  intros Ht Hop Hf. rewrite (Start_success _ rt Ht Hop).
  rewrite record_open_fails by done.
  eexists. split; [done|]. cbn. split_and!; try done. by rewrite <- app_assoc.
Qed.

(** X4: [Start()], [Stop()] and [Shutdown()] always return, and none of
    them reads or writes a coverage array: the methods of every class are
    afterwards what they were. *)
Theorem lifecycle_keeps_coverage (rt : Runtime) :
  (∃ rt', Start PrettyDescriptor rt = Ok rt' ∧ all_methods rt' = all_methods rt) ∧
  (∃ rt', Stop PrettyDescriptor rt = Ok rt' ∧ all_methods rt' = all_methods rt) ∧
  (∃ rt', Shutdown PrettyDescriptor rt = Ok rt' ∧ all_methods rt' = all_methods rt).
Proof.
  unfold all_methods. split_and!.
  - destruct (Start_cases PrettyDescriptor rt) as (rt' & Hrun & Hcase).
    exists rt'. split; [done|].
    destruct Hcase as [(_ & _ & -> & _)|(_ & _ & _ & ->)]; [done|].
    rewrite <- list_fmap_compose. apply list_fmap_ext.
    intros i c _. apply PostClassPrepare_methods.
  - destruct (Stop_total PrettyDescriptor rt) as (rt' & Hrun & _ & Hc & _).
    exists rt'. by rewrite Hc.
  - unfold Shutdown. destruct (IsMiniTraceActive rt).
    + destruct (Stop_total PrettyDescriptor rt) as (rt' & Hrun & _ & Hc & _).
      exists rt'. by rewrite Hc.
    + by exists rt.
Qed.

(** X5: [Start()] followed by [Stop()] closes the session again: no
    session is left, the listener list is what it was before [Start()],
    method tracing is off, and the classes keep the marks and stubs that
    [Start()] gave them. *)
Theorem Start_Stop_round_trip (rt : Runtime) :
  the_trace_ rt = None →
  ifstream_opens (os_state rt) (trace_config_filename (os_state rt)) = true →
  ∃ rt1 rt2,
    Start PrettyDescriptor rt = Ok rt1 ∧
    Stop PrettyDescriptor rt1 = Ok rt2 ∧
    the_trace_ rt2 = None ∧
    listeners (instrumentation rt2) = listeners (instrumentation rt) ∧
    method_tracing (instrumentation rt2) = false ∧
    classes rt2 = PostClassPrepare true <$> classes rt.
Proof.
  intros Ht Hop.
  destruct (Start_cases PrettyDescriptor rt) as (rt1 & Hrun1 & Hcase).
  assert (the_trace_ rt1 = Some MiniTrace_object ∧
          instrumentation rt1 =
            EnableMethodTracing (AddListener MiniTrace_object (instrumentation rt)) ∧
          classes rt1 = PostClassPrepare true <$> classes rt) as (Ht1 & Hi1 & Hc1).
  { destruct Hcase as [Hlog|(_ & ? & ? & ?)]; [|done].
    rewrite (Start_success _ rt Ht Hop) in Hrun1.
    apply DumpCoverageData_record_classes in Hrun1 as (_ & Hth & _).
    destruct Hlog as (Hsame & _). rewrite Hsame, Ht in Hth. done. }
  destruct (Stop_total PrettyDescriptor rt1) as (rt2 & Hrun2 & Ht2 & Hc2 & _ & Hi2).
  exists rt1, rt2. rewrite Ht1 in Hi2. rewrite Hi2, Hi1, Hc2, Hc1. by split_and!.
Qed.

(** X6: [Shutdown()] always returns and leaves no session, changes
    neither a file nor the class table, and changes nothing at all, the log
    included, when no session exists; so a second [Shutdown()] is a no-op. *)
Theorem Shutdown_idempotent (rt : Runtime) :
  ∃ rt',
    Shutdown PrettyDescriptor rt = Ok rt' ∧
    the_trace_ rt' = None ∧
    classes rt' = classes rt ∧
    os_state rt' = os_state rt ∧
    (the_trace_ rt = None → rt' = rt) ∧
    Shutdown PrettyDescriptor rt' = Ok rt'.
Proof.
  assert (Hidle : ∀ r, the_trace_ r = None → Shutdown PrettyDescriptor r = Ok r).
  { intros r Hr. unfold Shutdown, IsMiniTraceActive. by rewrite Hr. }
  destruct (the_trace_ rt) as [t|] eqn:Ht.
  - destruct (Stop_total PrettyDescriptor rt) as (rt' & Hrun & Ht' & Hc & Hos & _).
    exists rt'. unfold Shutdown at 1. unfold IsMiniTraceActive. rewrite Ht.
    split_and!; try done. by apply Hidle.
  - exists rt. rewrite (Hidle rt Ht). by split_and!.
Qed.

End SessionStart.

(** ** Further properties: dumps *)

Section Dumps.

Variable PrettyDescriptor : string → string.

(** X7: [DumpCoverageData(os, method)] only ever appends to the stream,
    and the only thing it changes in the method is that coverage bytes
    become zero: the array keeps its length, and every byte is afterwards
    zero or what it was. *)
Theorem DumpCoverageData_only_clears
    (os : string) (m : ArtMethod) (os' : string) (method' : option ArtMethod) :
  DumpCoverageData PrettyDescriptor os (Some m) = Ok (os', method') →
  ∃ m' suffix,
    method' = Some m' ∧
    os' = os +:+ suffix ∧
    method_only_cleared m m'.
Proof.
  intros Hrun.
  apply DumpCoverageData_method_result in Hrun as (m' & suffix & ? & ? & ? & _).
  by exists m', suffix.
Qed.

(** X8: a dump made while a session exists, with the coverage file open
    and write and flush succeeding, runs the class walk from the line
    [Dump\t<pid>\t<millis>\n] and puts exactly the text the walk built,
    that line first, behind what the file held; the class table is exactly
    the one the walk left, in which every visited method is drained. No
    other file is touched; session and instrumentation are as before; in
    the class table only coverage bytes changed, to zero, and a class that
    is not marked traceable is exactly as it was. *)
Theorem dump_appends_Dump_record (rt rt' : Runtime) (f : File) :
  IsMiniTraceActive rt = true →
  open_or_create (os_state rt) (coverage_data_filename (os_state rt)) = Some f →
  write_ok (os_state rt) = true →
  flush_ok (os_state rt) = true →
  DumpCoverageData_record PrettyDescriptor false rt = Ok rt' →
  (∃ text,
     visit_all (DumpCoverageDataClassVisitor PrettyDescriptor)
       (envelope "Dump" (os_state rt)) (classes rt) = Ok (text, classes rt') ∧
     coverage_file_contents rt' = coverage_file_contents rt +:+ text ∧
     ∃ body, text = envelope "Dump" (os_state rt) +:+ body) ∧
  (∀ p, p ≠ coverage_data_filename (os_state rt) →
        files (os_state rt') !! p = files (os_state rt) !! p) ∧
  the_trace_ rt' = the_trace_ rt ∧
  instrumentation rt' = instrumentation rt ∧
  Forall2 class_only_cleared (classes rt) (classes rt') ∧
  Forall class_drained (classes rt').
Proof.
  intros Ha Hf Hw Hfl Hrun.
  pose proof (record_active_file PrettyDescriptor false rt f Ha Hf) as Hrec.
  destruct (record_text PrettyDescriptor false rt) as [[text cs]|] eqn:Htext;
    [|congruence].
  destruct Hrec as (rt1 & Hrun1 & Ht & Hi & Hc & Hos).
  rewrite Hrun in Hrun1. injection Hrun1 as <-. subst cs.
  unfold record_text in Htext.
  destruct (walk_result _ _ _ _ _ Htext) as (Hcl & Hdr & body & Hbody).
  apply coverage_file_contents_after in Hos as [Hcon Hp].
  split_and!; try done.
  exists text. split_and!; [done| |by exists body].
  rewrite Hcon. unfold file_after_record. cbn. rewrite Hw, Hfl. cbn.
  by rewrite (open_or_create_coverage_contents rt f Hf).
Qed.

(** X9: a dump made while no class is marked traceable never faults and
    writes the envelope line alone; the class table is untouched. *)
Theorem dump_without_marked_class (rt : Runtime) (f : File) :
  IsMiniTraceActive rt = true →
  open_or_create (os_state rt) (coverage_data_filename (os_state rt)) = Some f →
  write_ok (os_state rt) = true →
  flush_ok (os_state rt) = true →
  Forall (fun c => Class_IsMiniTraceable c = false) (classes rt) →
  ∃ rt',
    DumpCoverageData_record PrettyDescriptor false rt = Ok rt' ∧
    coverage_file_contents rt' =
      coverage_file_contents rt +:+ envelope "Dump" (os_state rt) ∧
    classes rt' = classes rt.
Proof.
  intros Ha Hf Hw Hfl Hnone.
  pose proof (record_active_file PrettyDescriptor false rt f Ha Hf) as Hrec.
  assert (Htext : record_text PrettyDescriptor false rt =
                    Ok (envelope "Dump" (os_state rt), classes rt)).
  { unfold record_text.
    apply (visit_all_skip (fun c => Class_IsMiniTraceable c = false)); [|done].
    intros s c Hc. unfold DumpCoverageDataClassVisitor. by rewrite Hc. }
  rewrite Htext in Hrec. destruct Hrec as (rt' & Hrun & _ & _ & Hc & Hos).
  exists rt'. split_and!; try done.
  apply coverage_file_contents_after in Hos as [Hcon _].
  rewrite Hcon. unfold file_after_record. cbn. rewrite Hw, Hfl. cbn.
  by rewrite (open_or_create_coverage_contents rt f Hf).
Qed.

(** X10: of two dumps in a row, the second clears nothing: the class
    table, every coverage byte included, is after the second dump what it
    was after the first, whatever became of the file. *)
Theorem dump_twice_clears_once (rt rt1 rt2 : Runtime) :
  DumpCoverageData_record PrettyDescriptor false rt = Ok rt1 →
  DumpCoverageData_record PrettyDescriptor false rt1 = Ok rt2 →
  classes rt2 = classes rt1.
Proof.
  intros Hrun1 Hrun2.
  destruct (IsMiniTraceActive rt) eqn:Ha.
  - destruct (open_or_create (os_state rt) (coverage_data_filename (os_state rt)))
      as [f|] eqn:Hf.
    + pose proof (record_active_file PrettyDescriptor false rt f Ha Hf) as Hrec.
      destruct (record_text PrettyDescriptor false rt) as [[text cs]|] eqn:Htext;
        [|congruence].
      destruct Hrec as (r & Hr & Ht & _ & Hc & Hos).
      rewrite Hrun1 in Hr. simplify_eq.
      unfold record_text in Htext. apply walk_result in Htext as (_ & Hdr & _).
      assert (Ha1 : IsMiniTraceActive r = true)
        by (unfold IsMiniTraceActive in *; by rewrite Ht).
      assert (Hf1 : open_or_create (os_state r) (coverage_data_filename (os_state r))
                    = Some (file_after_record (os_state rt) f text)).
      { rewrite Hos. by apply open_or_create_again. }
      pose proof (record_active_file PrettyDescriptor false r _ Ha1 Hf1) as Hrec.
      destruct (record_text PrettyDescriptor false r) as [[text2 cs2]|] eqn:Htext2;
        [|congruence].
      destruct Hrec as (r2 & Hr2 & _ & _ & Hc2 & _).
      rewrite Hrun2 in Hr2. simplify_eq.
      unfold record_text in Htext2.
      by apply (walk_drained_fixed _ _ _ _ _ Hdr) in Htext2.
    + rewrite record_open_fails in Hrun1 by done. injection Hrun1 as <-.
      rewrite record_open_fails in Hrun2 by done. by injection Hrun2 as <-.
  - unfold DumpCoverageData_record in Hrun1. rewrite Ha in Hrun1.
    injection Hrun1 as <-.
    unfold DumpCoverageData_record in Hrun2. rewrite Ha in Hrun2.
    by injection Hrun2 as <-.
Qed.

(** X11: the two ways a dump fails. When the coverage file can be neither
    opened nor created, no class is walked: every coverage byte is kept
    for a later dump and only the log changes. When the file opens but the
    write fails, the walk has already run: the class table is the one the
    walk left, with the reported bytes cleared, and the file holds no
    [Dump] record. *)
Theorem dump_failures (rt : Runtime) :
  IsMiniTraceActive rt = true →
  (open_or_create (os_state rt) (coverage_data_filename (os_state rt)) = None →
   ∃ rt',
     DumpCoverageData_record PrettyDescriptor false rt = Ok rt' ∧
     same_but_log rt rt') ∧
  (∀ f text cs,
     open_or_create (os_state rt) (coverage_data_filename (os_state rt)) = Some f →
     write_ok (os_state rt) = false →
     visit_all (DumpCoverageDataClassVisitor PrettyDescriptor)
       (envelope "Dump" (os_state rt)) (classes rt) = Ok (text, cs) →
     ∃ rt',
       DumpCoverageData_record PrettyDescriptor false rt = Ok rt' ∧
       classes rt' = cs ∧
       Forall class_drained (classes rt') ∧
       coverage_file_contents rt' = "" ∧
       dump_envelope_written rt rt' = false).
Proof.
  intros Ha. split.
  - intros Hf. eexists. split; [by apply record_open_fails|]. done.
  - intros f text cs Hf Hw Hwalk.
    pose proof (record_active_file PrettyDescriptor false rt f Ha Hf) as Hrec.
    unfold record_text in Hrec. rewrite Hwalk in Hrec.
    destruct Hrec as (rt' & Hrun & _ & _ & Hc & Hos).
    apply walk_result in Hwalk as (_ & Hdr & _).
    apply coverage_file_contents_after in Hos as [Hcon _].
    unfold file_after_record in Hcon. rewrite Hw in Hcon. cbn in Hcon.
    exists rt'. split_and!; try done; [by rewrite Hc|].
    unfold dump_envelope_written. rewrite Hcon.
    apply andb_false_iff. left. apply not_true_is_false. intros H%prefix_length.
    rewrite length_append in H.
    pose proof (envelope_length "Dump" (os_state rt)). cbn in H. lia.
Qed.

End Dumps.

(** ** Further properties: runs and file names *)

Section RunInvariants.

Variable PrettyDescriptor : string → string.

(** X12: over any sequence of calls the listener is registered and method
    tracing is on exactly while a session exists; there is never more than
    one listener. *)
Theorem run_session_consistent (ops : list Op) (rt rt' : Runtime) :
  session_consistent rt →
  run PrettyDescriptor ops rt = Ok rt' →
  session_consistent rt'.
Proof.
  revert rt. induction ops as [|op ops IH]; intros rt Hinv H.
  - by simplify_eq/=.
  - cbn in H. unfold_res in H.
    destruct (step PrettyDescriptor op rt) as [rt1|] eqn:Hstep; [|done].
    apply (IH rt1); [|done]. by eapply step_session_consistent.
Qed.

(** X13: over any sequence of calls stubs are installed on marked classes
    only. *)
Theorem run_stubs_only_on_marked (ops : list Op) (rt rt' : Runtime) :
  stubs_only_on_marked rt →
  run PrettyDescriptor ops rt = Ok rt' →
  stubs_only_on_marked rt'.
Proof.
  unfold stubs_only_on_marked. intros Hinv Hrun.
  eapply (run_class_property PrettyDescriptor); [| | |exact Hinv|exact Hrun]; cbv beta.
  - by intros c ms.
  - intros active c Hc.
    rewrite PostClassPrepare_flag, PostClassPrepare_stubs.
    intros [Hs|[He _]%andb_true_iff]%orb_true_iff.
    + by rewrite (Hc Hs).
    + rewrite He. apply orb_true_r.
  - by intros klass.
Qed.

End RunInvariants.

(** X14: the coverage file and the trigger file of a user are different
    files, also across users; two users (user ids are 32-bit values) never
    share a coverage file, although the ["%d"] of the coverage file's name
    prints a user id from 2^31 on as a negative number. *)
Theorem file_names_distinct (os os' : OS) :
  coverage_data_filename os ≠ trace_config_filename os' ∧
  (getuid os < 4294967296 →
   getuid os' < 4294967296 →
   coverage_data_filename os = coverage_data_filename os' →
   getuid os = getuid os').
Proof.
  unfold coverage_data_filename, trace_config_filename. split.
  - intros H%String.app_inj.
    change "_coverage.dat" with ("_coverage.da" +:+ String "t" "") in H.
    change "_config.in" with ("_config.i" +:+ String "n" "") in H.
    rewrite <- !append_assoc in H. by apply append_last_neq in H.
  - intros Hu Hu' H%String.app_inj%append_cancel_r. apply (inj pretty) in H.
    unfold to_int32 in H.
    rewrite !Z.mod_small in H by lia.
    destruct (Z.ltb_spec (Z.of_N (getuid os)) 2147483648),
             (Z.ltb_spec (Z.of_N (getuid os')) 2147483648); lia.
Qed.

(** ** The further properties on the sample runtimes *)

Lemma Start_opens_session_witness :
  ∃ rt',
    Start sample_PrettyDescriptor sample_idle = Ok rt' ∧
    the_trace_ rt' = Some MiniTrace_object ∧
    instrumentation rt' = instrumentation sample_tracing ∧
    classes rt' = classes sample_tracing.
Proof.
  destruct (Start_opens_session sample_PrettyDescriptor sample_idle)
    as (rt' & Hrun & Ht & Hl & Hm & Hc & _); [reflexivity|reflexivity|].
  exists rt'. split_and!; [exact Hrun|exact Ht| |exact Hc].
  destruct (instrumentation rt') as [ls mt]. cbn in Hl, Hm. by subst.
Defined.

Lemma Start_appends_Start_record_witness :
  ∃ rt',
    Start sample_PrettyDescriptor sample_idle = Ok rt' ∧
    coverage_file_contents rt' = "Start" +:+ tab +:+ "4242" +:+ tab +:+ "1000" +:+ newline.
Proof.
  destruct (Start_appends_Start_record sample_PrettyDescriptor sample_idle
              {| contents := ""; openable := true |})
    as (rt' & Hrun & Hc & _); [reflexivity..|].
  exists rt'. split; [exact Hrun|]. rewrite Hc. reflexivity.
Defined.

Lemma Start_without_coverage_file_witness :
  ∃ rt',
    Start sample_PrettyDescriptor sample_idle_no_file = Ok rt' ∧
    IsMiniTraceActive rt' = true ∧
    os_state rt' = os_state sample_idle_no_file.
Proof.
  destruct (Start_without_coverage_file sample_PrettyDescriptor sample_idle_no_file)
    as (rt' & Hrun & Ha & Hos & _); [reflexivity..|].
  by exists rt'.
Defined.

Lemma Start_Stop_round_trip_witness :
  ∃ rt1 rt2,
    Start sample_PrettyDescriptor sample_idle = Ok rt1 ∧
    Stop sample_PrettyDescriptor rt1 = Ok rt2 ∧
    the_trace_ rt2 = None ∧
    listeners (instrumentation rt2) = [] ∧
    classes rt2 = classes sample_tracing.
Proof.
  destruct (Start_Stop_round_trip sample_PrettyDescriptor sample_idle)
    as (rt1 & rt2 & H1 & H2 & Ht & Hl & _ & Hc); [reflexivity..|].
  by exists rt1, rt2.
Defined.

Lemma Shutdown_idempotent_witness :
  ∃ rt',
    Shutdown sample_PrettyDescriptor sample_tracing = Ok rt' ∧
    the_trace_ rt' = None ∧
    Shutdown sample_PrettyDescriptor rt' = Ok rt'.
Proof.
  destruct (Shutdown_idempotent sample_PrettyDescriptor sample_tracing)
    as (rt' & H1 & Ht & _ & _ & _ & H2).
  by exists rt'.
Defined.

Lemma DumpCoverageData_only_clears_witness :
  ∃ m' suffix,
    DumpCoverageData sample_PrettyDescriptor "" (Some (sample_method 4 sample_data))
      = Ok ("" +:+ suffix, Some m') ∧
    method_only_cleared (sample_method 4 sample_data) m'.
Proof.
  destruct (DumpCoverageData sample_PrettyDescriptor ""
              (Some (sample_method 4 sample_data))) as [[os' mo']|] eqn:Hrun;
    [|vm_compute in Hrun; discriminate].
  destruct (DumpCoverageData_only_clears sample_PrettyDescriptor ""
              (sample_method 4 sample_data) os' mo' Hrun)
    as (m' & suffix & -> & -> & Hm).
  by exists m', suffix.
Defined.

Lemma dump_appends_Dump_record_witness :
  ∃ rt' text,
    DumpCoverageData_record sample_PrettyDescriptor false sample_tracing = Ok rt' ∧
    visit_all (DumpCoverageDataClassVisitor sample_PrettyDescriptor)
      (envelope "Dump" (os_state sample_tracing)) (classes sample_tracing)
      = Ok (text, classes rt') ∧
    coverage_file_contents rt' = coverage_file_contents sample_tracing +:+ text ∧
    Forall class_drained (classes rt').
Proof.
  destruct (DumpCoverageData_record sample_PrettyDescriptor false sample_tracing)
    as [rt'|] eqn:Hrun; [|vm_compute in Hrun; discriminate].
  destruct (dump_appends_Dump_record sample_PrettyDescriptor sample_tracing rt'
              {| contents := envelope "Start" (sample_OS ∅); openable := true |})
    as ((text & Hwalk & Hcon & _) & _ & _ & _ & _ & Hdr); [reflexivity..|exact Hrun|].
  by exists rt', text.
Defined.

Lemma dump_without_marked_class_witness :
  ∃ rt',
    DumpCoverageData_record sample_PrettyDescriptor false sample_unmarked = Ok rt' ∧
    coverage_file_contents rt' =
      "Start" +:+ tab +:+ "4242" +:+ tab +:+ "1000" +:+ newline +:+
      "Dump" +:+ tab +:+ "4242" +:+ tab +:+ "1000" +:+ newline ∧
    classes rt' = classes sample_unmarked.
Proof.
  destruct (dump_without_marked_class sample_PrettyDescriptor sample_unmarked
              {| contents := envelope "Start" (sample_OS ∅); openable := true |})
    as (rt' & Hrun & Hc & Hcl); [reflexivity..| |].
  - repeat constructor.
  - exists rt'. split_and!; [exact Hrun| |exact Hcl]. rewrite Hc. reflexivity.
Defined.

Lemma dump_twice_clears_once_witness :
  ∃ rt1 rt2,
    DumpCoverageData_record sample_PrettyDescriptor false sample_tracing = Ok rt1 ∧
    DumpCoverageData_record sample_PrettyDescriptor false rt1 = Ok rt2 ∧
    classes rt2 = classes rt1.
Proof.
  destruct (DumpCoverageData_record sample_PrettyDescriptor false sample_tracing)
    as [rt1|] eqn:Hrun1; [|vm_compute in Hrun1; discriminate].
  destruct (DumpCoverageData_record sample_PrettyDescriptor false rt1)
    as [rt2|] eqn:Hrun2.
  - exists rt1, rt2. split_and!; [reflexivity|exact Hrun2|].
    exact (dump_twice_clears_once sample_PrettyDescriptor sample_tracing rt1 rt2
             Hrun1 Hrun2).
  - exfalso. vm_compute in Hrun1. injection Hrun1 as <-.
    vm_compute in Hrun2. discriminate.
Defined.

Lemma dump_failures_witness :
  (∃ rt',
     DumpCoverageData_record sample_PrettyDescriptor false sample_no_file = Ok rt' ∧
     same_but_log sample_no_file rt') ∧
  (∃ rt',
     DumpCoverageData_record sample_PrettyDescriptor false sample_write_fails = Ok rt' ∧
     coverage_file_contents rt' = "" ∧
     Forall class_drained (classes rt')).
Proof.
  split.
  - apply (proj1 (dump_failures sample_PrettyDescriptor sample_no_file eq_refl)).
    reflexivity.
  - destruct (visit_all (DumpCoverageDataClassVisitor sample_PrettyDescriptor)
                (envelope "Dump" (os_state sample_write_fails))
                (classes sample_write_fails)) as [[text cs]|] eqn:Hwalk;
      [|vm_compute in Hwalk; discriminate].
    destruct (proj2 (dump_failures sample_PrettyDescriptor sample_write_fails eq_refl)
                {| contents := envelope "Start" (sample_OS ∅); openable := true |}
                text cs eq_refl eq_refl Hwalk)
      as (rt' & Hrun & _ & Hdr & Hc & _).
    by exists rt'.
Defined.

Lemma run_session_consistent_witness :
  ∃ rt',
    run sample_PrettyDescriptor [OpStart; OpStop; OpStart; OpShutdown; OpStart] sample_idle
      = Ok rt' ∧
    session_consistent rt'.
Proof.
  destruct (run sample_PrettyDescriptor [OpStart; OpStop; OpStart; OpShutdown; OpStart]
              sample_idle) as [rt'|] eqn:Hrun; [|vm_compute in Hrun; discriminate].
  exists rt'. split; [reflexivity|].
  by apply (run_session_consistent sample_PrettyDescriptor
              [OpStart; OpStop; OpStart; OpShutdown; OpStart] sample_idle rt').
Defined.

Lemma run_stubs_only_on_marked_witness :
  ∃ rt',
    run sample_PrettyDescriptor
      [OpClassLoad sample_app_class; OpStart; OpClassPrepare 0; OpStop] sample_idle
      = Ok rt' ∧
    stubs_only_on_marked rt'.
Proof.
  destruct (run sample_PrettyDescriptor
              [OpClassLoad sample_app_class; OpStart; OpClassPrepare 0; OpStop]
              sample_idle) as [rt'|] eqn:Hrun; [|vm_compute in Hrun; discriminate].
  exists rt'. split; [reflexivity|].
  apply (run_stubs_only_on_marked sample_PrettyDescriptor
           [OpClassLoad sample_app_class; OpStart; OpClassPrepare 0; OpStop]
           sample_idle rt'); [|exact Hrun].
  repeat constructor; discriminate.
Defined.

Lemma file_names_distinct_witness :
  coverage_data_filename (sample_OS ∅) ≠ trace_config_filename (sample_OS ∅) ∧
  getuid (sample_OS ∅) = getuid (sample_OS sample_trigger).
Proof.
  destruct (file_names_distinct (sample_OS ∅) (sample_OS ∅)) as [Hne _].
  destruct (file_names_distinct (sample_OS ∅) (sample_OS sample_trigger)) as [_ Huid].
  split; [exact Hne|]. apply Huid; [vm_compute; reflexivity..|reflexivity].
Defined.

(** The names for a user id beyond the range of [int]: the coverage file's
    name carries a negative number, the trigger file's does not. *)
Example file_names_large_uid :
  coverage_data_filename
    {| files := ∅; create_ok := true; write_ok := true; flush_ok := true;
       getuid := 4294967294; getpid := 1; MilliTime := 0 |}
    = "/data/mini_trace_-2_coverage.dat" ∧
  trace_config_filename
    {| files := ∅; create_ok := true; write_ok := true; flush_ok := true;
       getuid := 4294967294; getpid := 1; MilliTime := 0 |}
    = "/data/mini_trace_4294967294_config.in".
Proof. split; reflexivity. Qed.
